(** * TaskReport_QA: the suggestion parser, the report store and the HTTP
      handlers of [backend/app.py], embedded and verified.

    Python values are modelled as the program has them:
    - a [str] is a sequence of Unicode code points ([pystr], a list of [N]);
    - a [bytes] object is a [list byte];
    - the dictionary [report_storage] is a finite map from [str] to [str];
    - an expression that may raise evaluates to an [Outcome];
    - what the process cannot decide by itself (the UUID generator, the
      Ollama constructor, the completions of the model) is read from a
      [World] record, and the calls issued to it are logged as [Event]s. *)

From Stdlib Require Import NArith.
From Stdlib.Strings Require Import Ascii String Byte.
From stdpp Require Import base option list gmap.

Local Open Scope N_scope.

(** ** Python strings *)

Abbreviation pystr := (list N).

(** A string literal of the source: every ASCII character is its own code
    point. *)
Definition str (s : string) : pystr := map N_of_ascii (list_ascii_of_string s).

(** The one-character string of the escape [\n]. *)
Definition nl : pystr := [10].

(** [bool(x)] of a sequence: a sequence is true when it is not empty. *)
Definition truthy {A} (l : list A) : bool :=
  match l with [] => false | _ :: _ => true end.

(** [c in s] *)
Definition contains (c : N) (s : pystr) : bool := existsb (N.eqb c) s.

(** [str.isspace] of one character: the code points whose bidirectional
    class is WS, B or S, or whose category is Zs. *)
Definition isspace (c : N) : bool :=
  ((9 <=? c) && (c <=? 13)) || ((28 <=? c) && (c <=? 32))
  || (c =? 133) || (c =? 160) || (c =? 5760)
  || ((8192 <=? c) && (c <=? 8202))
  || (c =? 8232) || (c =? 8233) || (c =? 8239) || (c =? 8287) || (c =? 12288).

Fixpoint lstrip (s : pystr) : pystr :=
  match s with
  | [] => []
  | c :: s' => if isspace c then lstrip s' else s
  end.

Definition rstrip (s : pystr) : pystr := rev (lstrip (rev s)).

(** [s.strip()] *)
Definition strip (s : pystr) : pystr := rstrip (lstrip s).

(** [s.split(sep)] for a one-character separator: the pieces between the
    occurrences of [sep], so one piece more than there are separators. *)
Fixpoint split (sep : N) (s : pystr) : list pystr :=
  match s with
  | [] => [[]]
  | c :: s' =>
      if c =? sep then [] :: split sep s'
      else match split sep s' with
           | piece :: pieces => (c :: piece) :: pieces
           | [] => [[c]]
           end
  end.

Definition ascii_isdigit (c : N) : bool := (48 <=? c) && (c <=? 57).

Definition ascii_isalpha (c : N) : bool :=
  ((65 <=? c) && (c <=? 90)) || ((97 <=? c) && (c <=? 122)).

(** ** The suggestion parser *)

(** The Unicode character database outside ASCII: which code points from
    128 on are digits ([str.isdigit]) and letters ([str.isalpha]).  The
    tables belong to the interpreter; the program is verified for all of
    them. *)
Class UnicodeData := {
  unicode_isdigit : N → bool;
  unicode_isalpha : N → bool
}.

Section SuggestionParser.

Context {ucd : UnicodeData}.

Definition isdigit (c : N) : bool :=
  if c <? 128 then ascii_isdigit c else unicode_isdigit c.

Definition isalpha (c : N) : bool :=
  if c <? 128 then ascii_isalpha c else unicode_isalpha c.

(** [[line.strip() for line in suggestions_text.split('\n') if line.strip()]] *)
Definition stripped_lines (suggestions_text : pystr) : list pystr :=
  map strip (filter (λ line, truthy (strip line) = true) (split 10 suggestions_text)).

(** [any(char.isdigit() for char in line[:2])]: the line is numbered. *)
Definition numbered (line : pystr) : bool := existsb isdigit (take 2 line).

(** The test of the [continue]: the line is not numbered while fewer than
    three questions are collected. *)
Definition is_skipped (questions : list pystr) (line : pystr) : bool :=
  negb (numbered line) && (length questions <? 3)%nat.

(** The inner loop [for i, char in enumerate(line)]: [rest] is what is left
    to enumerate, [i] the index of its head in [line].  The letter test
    comes first; the bound [i > 5] is tested after it, on the same
    character. *)
Fixpoint scan_prefix (line : pystr) (i : nat) (rest : pystr) : pystr :=
  match rest with
  | [] => line
  | char :: rest' =>
      if isalpha char then drop i line
      else if (5 <? i)%nat then line
      else scan_prefix line (S i) rest'
  end.

(** The value of [cleaned] after the inner loop. *)
Definition cleaned_of (line : pystr) : pystr := scan_prefix line 0 line.

(** One iteration of [for line in lines]. *)
Definition loop_body (questions : list pystr) (line : pystr) : list pystr :=
  if is_skipped questions line then questions
  else
    let cleaned := cleaned_of line in
    if truthy cleaned && contains 63 cleaned then questions ++ [strip cleaned]
    else if truthy cleaned && (10 <? length cleaned)%nat then questions ++ [strip cleaned]
    else questions.

Definition fallback : list pystr :=
  [ str "What were the main challenges?";
    str "What's planned for next week?";
    str "Is the timeline on track?" ].

Definition collect (lines : list pystr) : list pystr :=
  fold_left loop_body lines [].

Definition parse_suggestions (suggestions_text : pystr) : list pystr :=
  let questions := collect (stripped_lines suggestions_text) in
  if truthy questions then take 3 questions else fallback.

End SuggestionParser.

(** ** Decoding the uploaded bytes *)

Definition in_range (lo hi : N) (b : byte) : bool :=
  (lo <=? Byte.to_N b) && (Byte.to_N b <=? hi).

(** The six payload bits of a continuation byte. *)
Definition low6 (b : byte) : N := N.land (Byte.to_N b) 63.

(** The second byte of a three-byte sequence: [E0] excludes the overlong
    forms, [ED] the surrogates. *)
Definition second_of_3 (b0 b1 : byte) : bool :=
  if Byte.to_N b0 =? 0xE0 then in_range 0xA0 0xBF b1
  else if Byte.to_N b0 =? 0xED then in_range 0x80 0x9F b1
  else in_range 0x80 0xBF b1.

(** The second byte of a four-byte sequence: [F0] excludes the overlong
    forms, [F4] what lies beyond U+10FFFF. *)
Definition second_of_4 (b0 b1 : byte) : bool :=
  if Byte.to_N b0 =? 0xF0 then in_range 0x90 0xBF b1
  else if Byte.to_N b0 =? 0xF4 then in_range 0x80 0x8F b1
  else in_range 0x80 0xBF b1.

(** [content.decode("utf-8")], the strict decoder: [None] stands for
    [UnicodeDecodeError]. *)
Fixpoint utf8_decode (content : list byte) : option pystr :=
  match content with
  | [] => Some []
  | b0 :: bs1 =>
      if in_range 0x00 0x7F b0 then
        cons (Byte.to_N b0) <$> utf8_decode bs1
      else if in_range 0xC2 0xDF b0 then
        match bs1 with
        | b1 :: bs2 =>
            if in_range 0x80 0xBF b1 then
              cons (N.shiftl (N.land (Byte.to_N b0) 31) 6 + low6 b1)
                <$> utf8_decode bs2
            else None
        | _ => None
        end
      else if in_range 0xE0 0xEF b0 then
        match bs1 with
        | b1 :: b2 :: bs3 =>
            if second_of_3 b0 b1 && in_range 0x80 0xBF b2 then
              cons (N.shiftl (N.land (Byte.to_N b0) 15) 12
                    + N.shiftl (low6 b1) 6 + low6 b2)
                <$> utf8_decode bs3
            else None
        | _ => None
        end
      else if in_range 0xF0 0xF4 b0 then
        match bs1 with
        | b1 :: b2 :: b3 :: bs4 =>
            if second_of_4 b0 b1 && in_range 0x80 0xBF b2 && in_range 0x80 0xBF b3 then
              cons (N.shiftl (N.land (Byte.to_N b0) 7) 18
                    + N.shiftl (low6 b1) 12 + N.shiftl (low6 b2) 6 + low6 b3)
                <$> utf8_decode bs4
            else None
        | _ => None
        end
      else None
  end.

(** [content.decode("latin-1")]: every byte is the code point of its value;
    this decoder accepts every input. *)
Definition latin1_decode (content : list byte) : pystr := map Byte.to_N content.

(** The [try]/[except UnicodeDecodeError] around the two decoders. *)
Definition decode_report (content : list byte) : pystr :=
  match utf8_decode content with
  | Some file_text => file_text
  | None => latin1_decode content
  end.

(** ** Exceptions, responses and the state of the process *)

(** An exception, as far as the handlers look at it: its [str(e)]. *)
Record Exn := { exn_str : pystr }.

(** The result of an expression that may raise. *)
Inductive Outcome (A : Type) :=
  | Return (a : A)
  | Raise (e : Exn).
Arguments Return {A} a.
Arguments Raise {A} e.

Record HTTPException := { status_code : N; detail : pystr }.

(** The dictionaries that the three handlers return. *)
Inductive Body :=
  | RootBody (message : pystr)
  | UploadBody (message session_id : pystr)
  | AnswerBody (answer : pystr) (suggestions : list pystr).

(** A returned dictionary is sent with status 200, a raised [HTTPException]
    with its own status. *)
Inductive Response :=
  | Ok200 (content : Body)
  | Failed (e : HTTPException).

Definition status_of (r : Response) : N :=
  match r with
  | Ok200 _ => 200
  | Failed e => status_code e
  end.

(** The client object built by [OllamaLLM(model=...)]. *)
Record OllamaLLM := { model : pystr }.

(** The two module-level variables. *)
Record State := {
  report_storage : gmap pystr pystr;
  llm : option OllamaLLM
}.

Inductive Prompt := qa_prompt | followup_prompt.

(** What a handler reads from outside the process while it serves one
    request. *)
Record World := {
  (** [str(uuid.uuid4())] *)
  uuid4 : pystr;
  (** the constructor [OllamaLLM(model=...)] *)
  new_OllamaLLM : pystr → Outcome OllamaLLM;
  (** [(prompt | llm).ainvoke({"report": ..., "question": ...})] *)
  ainvoke : Prompt → pystr → pystr → Outcome pystr;
  (** when both tasks raise: the one whose exception [gather] sees first *)
  first_raised : Prompt
}.

(** The calls a handler issues to the model runtime, in program order. *)
Inductive Event :=
  | Constructed (model : pystr)
  | Completion (prompt : Prompt) (report question : pystr).

(** One served request. *)
Record Run := {
  response : Response;
  after : State;
  events : list Event
}.

Record UploadFile := { read : Outcome (list byte) }.

Record QuestionRequest := { question : pystr; session_id : pystr }.

(** ** The handlers *)

(** [asyncio.gather(answer_task, suggestions_task)]: the pair of results, or
    the first exception raised. *)
Definition gather (first : Prompt) (answer_task suggestions_task : Outcome pystr)
  : Outcome (pystr * pystr) :=
  match answer_task, suggestions_task with
  | Return answer, Return suggestions_text => Return (answer, suggestions_text)
  | Raise e, Return _ => Raise e
  | Return _, Raise e => Raise e
  | Raise e1, Raise e2 =>
      Raise (match first with qa_prompt => e1 | followup_prompt => e2 end)
  end.

(** The module initialisation: an empty store, and a first attempt to build
    the client whose failure is only printed. *)
Definition startup (w : World) : State :=
  {| report_storage := ∅;
     llm := match new_OllamaLLM w (str "llama3") with
            | Return client => Some client
            | Raise _ => None
            end |}.

Definition root (st : State) : Run :=
  {| response := Ok200 (RootBody (str "Task Report QA API is running"));
     after := st;
     events := [] |}.

Definition upload_report (w : World) (file : UploadFile) (st : State) : Run :=
  match read file with
  | Raise e =>
      {| response := Failed {| status_code := 500;
                               detail := str "File upload failed: " ++ exn_str e |};
         after := st;
         events := [] |}
  | Return content =>
      let file_text := decode_report content in
      let session_id := uuid4 w in
      {| response := Ok200 (UploadBody (str "Report uploaded successfully") session_id);
         after := {| report_storage := <[session_id := file_text]> (report_storage st);
                     llm := llm st |};
         events := [] |}
  end.

Section Handlers.

Context {ucd : UnicodeData}.

(** The body of the [try] once the client is at hand: both tasks are
    created, then awaited together. *)
Definition complete_both (w : World) (request : QuestionRequest)
    (report_text : pystr) (st : State) (issued : list Event) : Run :=
  let answer_task := ainvoke w qa_prompt report_text (question request) in
  let suggestions_task := ainvoke w followup_prompt report_text (question request) in
  let issued :=
    issued ++ [Completion qa_prompt report_text (question request);
               Completion followup_prompt report_text (question request)] in
  match gather (first_raised w) answer_task suggestions_task with
  | Return (answer, suggestions_text) =>
      let suggestions :=
        parse_suggestions suggestions_text in
      {| response := Ok200 (AnswerBody (strip answer) suggestions);
         after := st;
         events := issued |}
  | Raise e =>
      {| response := Failed {| status_code := 500;
                               detail := str "Error processing question: " ++ exn_str e |};
         after := st;
         events := issued |}
  end.

Definition ask_question (w : World) (request : QuestionRequest) (st : State) : Run :=
  match report_storage st !! session_id request with
  | None =>
      {| response := Failed {| status_code := 404;
                               detail := str "No report found. Please upload a report first." |};
         after := st;
         events := [] |}
  | Some report_text =>
      match llm st with
      | Some _ => complete_both w request report_text st []
      | None =>
          match new_OllamaLLM w (str "llama3") with
          | Return client =>
              complete_both w request report_text
                {| report_storage := report_storage st; llm := Some client |}
                [Constructed (str "llama3")]
          | Raise e =>
              {| response := Failed {| status_code := 500;
                                       detail := str "Error processing question: " ++ exn_str e |};
                 after := st;
                 events := [Constructed (str "llama3")] |}
          end
      end
  end.

(** The three routes of the application. *)
Inductive Request :=
  | GetRoot
  | PostUploadReport (file : UploadFile)
  | PostAskQuestion (request : QuestionRequest).

Definition serve (w : World) (r : Request) (st : State) : Run :=
  match r with
  | GetRoot => root st
  | PostUploadReport file => upload_report w file st
  | PostAskQuestion request => ask_question w request st
  end.

(** A sequence of requests, each served in the state its predecessor left
    and with its own reading of the world. *)
Fixpoint serve_all (rs : list (World * Request)) (st : State) : list Response * State :=
  match rs with
  | [] => ([], st)
  | (w, r) :: rs' =>
      let run := serve w r st in
      let '(responses, final) := serve_all rs' (after run) in
      (response run :: responses, final)
  end.

End Handlers.

(** ** The inputs of the examples *)

(** Lines joined by newline characters. *)
Definition three_numbered : pystr :=
  str "1. Is X on track?" ++ nl ++ str "2. What about Y?" ++ nl ++ str "3. Will Z ship?".

(** A character database with nothing outside ASCII, for the examples. *)
Definition ascii_only : UnicodeData :=
  {| unicode_isdigit := λ _, false; unicode_isalpha := λ _, false |}.

(** Two lines without a number, the second of which ends in a question
    mark. *)
Definition unnumbered_text : pystr :=
  str "Thanks for the report." ++ nl ++ str "Is anything else unclear?".

(** Two session ids as the generator prints them. *)
Definition id_a : pystr := str "0b0e7c3a-5d1f-4c58-9a53-6f1d2b7e8a10".
Definition id_b : pystr := str "7c9e6679-7425-40de-944b-e07fc1f90ae7".

Definition report_bytes : list byte :=
  list_byte_of_string "Week 1: finished module A. Blocked on API access.".

(** The four bytes of [Caf\xe9]: the last one is a letter in Latin-1 and no
    valid UTF-8. *)
Definition latin1_bytes : list byte := [x43; x61; x66; xe9].

(** A runtime that answers both prompts. *)
Definition world_up (id : pystr) : World :=
  {| uuid4 := id;
     new_OllamaLLM := λ name, Return {| model := name |};
     ainvoke := λ prompt _ _,
       match prompt with
       | qa_prompt => Return (str " API access is blocking progress. ")
       | followup_prompt => Return three_numbered
       end;
     first_raised := qa_prompt |}.

(** A runtime whose follow-up completion raises. *)
Definition world_down (id : pystr) : World :=
  {| uuid4 := id;
     new_OllamaLLM := λ name, Return {| model := name |};
     ainvoke := λ prompt _ _,
       match prompt with
       | qa_prompt => Return (str " API access is blocking progress. ")
       | followup_prompt => Raise {| exn_str := str "connection refused" |}
       end;
     first_raised := followup_prompt |}.

Definition report_file : UploadFile := {| read := Return report_bytes |}.
Definition latin1_file : UploadFile := {| read := Return latin1_bytes |}.

(** The state after the first upload of a fresh process. *)
Definition one_report : State :=
  after (upload_report (world_up id_a) report_file (startup (world_up id_a))).

Definition blocking_question (sid : pystr) : QuestionRequest :=
  {| question := str "What is blocking progress?"; session_id := sid |}.

(** An upload, a question about it, and a second upload. *)
Definition two_uploads : list (World * Request) :=
  [ (world_up id_a, PostUploadReport report_file);
    (world_up id_a, PostAskQuestion (blocking_question id_a));
    (world_up id_b, PostUploadReport latin1_file) ].

(** The three items of [three_numbered], marker and question apart. *)
Definition three_items : list (pystr * pystr) :=
  [ (str "1. ", str "Is X on track?");
    (str "2. ", str "What about Y?");
    (str "3. ", str "Will Z ship?") ].

(** A blank line that ends in a carriage return. *)
Definition blank_text : pystr := str "  " ++ [13].

(** Two uploads for which the generator draws the same id. *)
Definition same_id_twice : list (World * Request) :=
  [ (world_up id_a, PostUploadReport report_file);
    (world_up id_a, PostUploadReport latin1_file) ].

(** A health check and a question, no upload. *)
Definition no_upload : list (World * Request) :=
  [ (world_up id_a, GetRoot);
    (world_up id_a, PostAskQuestion (blocking_question id_a)) ].

(** ** Session ids over a sequence of requests *)

(** The session id that serving a request draws from the UUID generator: an
    upload whose file could be read draws one, nothing else does. *)
Definition drawn_id (w : World) (r : Request) : option pystr :=
  match r with
  | PostUploadReport file =>
      match read file with
      | Return _ => Some (uuid4 w)
      | Raise _ => None
      end
  | _ => None
  end.

Definition drawn_ids (rs : list (World * Request)) : list pystr :=
  omap (λ wr, drawn_id wr.1 wr.2) rs.

(** The session id that a response hands to the client. *)
Definition returned_id (r : Response) : option pystr :=
  match r with
  | Ok200 (UploadBody _ session_id) => Some session_id
  | _ => None
  end.

(** ** Views of the parser used in the statements *)

(** The string does not begin with whitespace. *)
Definition starts_clean (s : pystr) : bool :=
  match s with
  | [] => true
  | c :: _ => negb (isspace c)
  end.

(** The string does not end with whitespace. *)
Definition ends_clean (s : pystr) : bool := starts_clean (rev s).

(** The string is made of whitespace only. *)
Definition all_space (s : pystr) : bool := forallb isspace s.

Section ParserView.

Context {ucd : UnicodeData}.

(** What a line that is not skipped contributes: its cleaned form, trimmed,
    when one of the two tests of the loop body holds. *)
Definition accepted (line : pystr) : option pystr :=
  let cleaned := cleaned_of line in
  if truthy cleaned && (contains 63 cleaned || (10 <? length cleaned)%nat)
  then Some (strip cleaned)
  else None.

(** The questions of the numbered lines alone. *)
Definition numbered_questions (lines : list pystr) : list pystr :=
  omap accepted (filter (λ line, numbered line = true) lines).

(** The first letter among the first seven characters, with its index. *)
Definition first_letter (line : pystr) : option (nat * N) :=
  list_find (λ char, isalpha char = true) (take 7 line).

(** [nl.join(lines)]: the lines with a newline between them. *)
Fixpoint join_lines (lines : list pystr) : pystr :=
  match lines with
  | [] => []
  | [line] => line
  | line :: lines' => line ++ nl ++ join_lines lines'
  end.

(** An item of a numbered list as the follow-up prompt asks for it: a marker
    [marker] of at most five characters that begins with an ASCII digit and
    has no letter, then a question [q] that begins with a letter, is
    trimmed, and has a question mark or more than ten characters; neither
    has a newline. *)
Definition well_formed_item (item : pystr * pystr) : bool :=
  let '(marker, q) := item in
  match marker with d :: _ => ascii_isdigit d | [] => false end
  && negb (existsb isalpha marker)
  && (length marker <=? 5)%nat
  && negb (contains 10 marker)
  && negb (contains 10 q)
  && match q with c :: _ => isalpha c | [] => false end
  && starts_clean q
  && ends_clean q
  && (contains 63 q || (10 <? length q)%nat).

(** The line of an item. *)
Definition item_line (item : pystr * pystr) : pystr := item.1 ++ item.2.

End ParserView.

Section RunView.

Context {ucd : UnicodeData}.

(** The calls issued to the model runtime over a sequence of requests. *)
Fixpoint trace (rs : list (World * Request)) (st : State) : list Event :=
  match rs with
  | [] => []
  | (w, r) :: rs' => events (serve w r st) ++ trace rs' (after (serve w r st))
  end.

End RunView.

(** ** Properties of the suggestion parser *)

Section ParserProperties.

Context {ucd : UnicodeData}.

Lemma length_fallback : length fallback = 3%nat.
Proof. reflexivity. Qed.

Lemma parse_suggestions_length_le (text : pystr) :
  (length (parse_suggestions text) ≤ 3)%nat.
Proof.
  unfold parse_suggestions.
  destruct (truthy _).
  - rewrite length_take. lia.
  - rewrite length_fallback. lia.
Qed.

Lemma parse_suggestions_length_ge (text : pystr) :
  (1 ≤ length (parse_suggestions text))%nat.
Proof.
  unfold parse_suggestions.
  destruct (collect _) as [|q qs]; simpl; lia.
Qed.

(** While nothing is collected, a line that is not numbered leaves the
    list as it is. *)
Lemma loop_body_skips (line : pystr) :
  numbered line = false → loop_body [] line = [].
Proof.
  intros Hno. unfold loop_body, is_skipped.
  rewrite Hno. reflexivity.
Qed.

Lemma collect_unnumbered (lines : list pystr) :
  Forall (λ line, numbered line = false) lines → collect lines = [].
Proof.
  unfold collect.
  induction 1 as [|line lines Hline _ IH]; simpl.
  - reflexivity.
  - rewrite loop_body_skips by exact Hline. exact IH.
Qed.

Lemma stripped_lines_empty : stripped_lines [] = [].
Proof. reflexivity. Qed.

(** The inner loop found no letter: among the characters it looks at,
    those of index [i] to 6, none is alphabetic. *)
Lemma scan_prefix_no_letter (line rest : pystr) (i : nat) :
  (i ≤ 6)%nat →
  existsb isalpha (take (7 - i) rest) = false →
  scan_prefix line i rest = line.
Proof.
  revert i. induction rest as [|char rest IH]; intros i Hi Hno; simpl.
  - reflexivity.
  - replace (7 - i)%nat with (S (6 - i)) in Hno by lia.
    simpl in Hno. apply orb_false_elim in Hno as [Hc Hrest].
    rewrite Hc.
    destruct (5 <? i)%nat eqn:Hbound; [reflexivity|].
    apply Nat.ltb_ge in Hbound.
    apply IH; [lia|].
    replace (7 - S i)%nat with (6 - i)%nat by lia. exact Hrest.
Qed.

(** The inner loop found the first letter, [k] characters further on, at
    an index of at most 6. *)
Lemma scan_prefix_letter (line rest : pystr) (i k : nat) (char : N) :
  (i + k ≤ 6)%nat →
  existsb isalpha (take k rest) = false →
  rest !! k = Some char →
  isalpha char = true →
  scan_prefix line i rest = drop (i + k) line.
Proof.
  revert i k. induction rest as [|c rest IH]; intros i k Hik Hno Hk Hchar.
  - destruct k; discriminate Hk.
  - destruct k as [|k]; simpl in *.
    + injection Hk as ->. rewrite Hchar. by rewrite Nat.add_0_r.
    + apply orb_false_elim in Hno as [Hc Hrest]. rewrite Hc.
      destruct (5 <? i)%nat eqn:Hbound.
      { apply Nat.ltb_lt in Hbound. lia. }
      replace (i + S k)%nat with (S i + k)%nat by lia.
      apply (IH (S i) k); [lia|done..].
Qed.

(** What the prefix strip does: it looks at the first seven characters. *)
Lemma cleaned_of_window (line : pystr) :
  existsb isalpha (take 7 line) = false → cleaned_of line = line.
Proof. intros H. apply scan_prefix_no_letter; [lia|exact H]. Qed.

Lemma cleaned_of_first_letter (line : pystr) (k : nat) (char : N) :
  (k ≤ 6)%nat →
  existsb isalpha (take k line) = false →
  line !! k = Some char →
  isalpha char = true →
  cleaned_of line = drop k line.
Proof. intros. by apply (scan_prefix_letter line line 0 k char). Qed.

(** C1: for every input string, the empty one included, [parse_suggestions]
    returns at most three strings; being a total function it always returns;
    and it returns exactly the fixed fallback triple when the input is empty
    or when none of its lines is numbered, that is, begins with a digit within
    its first two characters.  The lines are those the parser iterates over:
    the pieces between newlines, trimmed, the empty ones left out. *)
Theorem parse_suggestions_total (suggestions_text : pystr) :
  (length (parse_suggestions suggestions_text) ≤ 3)%nat
  ∧ (suggestions_text = []
     ∨ Forall (λ line, numbered line = false) (stripped_lines suggestions_text) →
     parse_suggestions suggestions_text
     = [ str "What were the main challenges?";
         str "What's planned for next week?";
         str "Is the timeline on track?" ]).
Proof.
  split; [apply parse_suggestions_length_le|].
  intros Hinput.
  assert (Hlines : Forall (λ line, numbered line = false)
                     (stripped_lines suggestions_text)).
  { destruct Hinput as [-> | Hall]; [|exact Hall].
    rewrite stripped_lines_empty. constructor. }
  unfold parse_suggestions.
  rewrite (collect_unnumbered _ Hlines). reflexivity.
Qed.

(** Numbering is judged on the trimmed line: blanks before the number do
    not turn an item into a header. *)
Example leading_blanks_are_trimmed :
  parse_suggestions (str "  1. What is late?") = [str "What is late?"].
Proof. vm_compute. reflexivity. Qed.

(** Once three questions are collected the header rule is off, and the
    result is cut to the first three. *)
Example fourth_line_is_cut :
  parse_suggestions
    (str "1. Why?" ++ nl ++ str "2. Who?" ++ nl ++ str "3. When?" ++ nl
     ++ str "Anything else to report?")
  = [str "Why?"; str "Who?"; str "When?"].
Proof. vm_compute. reflexivity. Qed.

(** C2: the prefix strip of [parse_suggestions] does not stop at the sixth
    character.  In the line [1.    Why?], which is numbered and so not
    skipped, none of the first six characters is alphabetic and the first
    letter is the seventh character; the line is nevertheless stripped down
    to [Why?], and that is what the parser returns. *)
Theorem prefix_scan_reaches_seventh_character :
  let line := str "1.    Why?" in
  stripped_lines line = [line]
  ∧ is_skipped [] line = false
  ∧ existsb isalpha (take 6 line) = false
  ∧ line !! 6%nat = Some 87
  ∧ cleaned_of line = str "Why?"
  ∧ cleaned_of line ≠ line
  ∧ parse_suggestions line = [str "Why?"].
Proof. vm_compute. repeat split; discriminate. Qed.

(** C3: on the three numbered lines [1. Is X on track?], [2. What about Y?]
    and [3. Will Z ship?], separated by newline characters,
    [parse_suggestions] returns exactly the three questions without their
    numbers, in that order. *)
Theorem parse_three_numbered_lines :
  parse_suggestions
    (str "1. Is X on track?" ++ nl ++ str "2. What about Y?" ++ nl
     ++ str "3. Will Z ship?")
  = [str "Is X on track?"; str "What about Y?"; str "Will Z ship?"].
Proof. vm_compute. reflexivity. Qed.

(** C4: on the input made of the header [Sure, here are three questions:]
    and the items [1) Short], [2) Are deadlines firm?] and [3) Budget?], the
    header is skipped by the header rule (it is not numbered and fewer than
    three questions are collected); the numbered line [1) Short] is not
    skipped, but its cleaned form [Short] has no question mark and a length
    of at most 10, so that it is not appended; the result is exactly
    [Are deadlines firm?] and [Budget?]. *)
Theorem parse_header_then_items :
  let header := str "Sure, here are three questions:" in
  let short := str "1) Short" in
  let text :=
    header ++ nl ++ short ++ nl ++ str "2) Are deadlines firm?" ++ nl
    ++ str "3) Budget?" in
  stripped_lines text
  = [header; short; str "2) Are deadlines firm?"; str "3) Budget?"]
  ∧ (numbered header = false ∧ is_skipped [] header = true)
  ∧ (numbered short = true ∧ is_skipped [] short = false)
  ∧ cleaned_of short = str "Short"
  ∧ contains 63 (cleaned_of short) = false
  ∧ (length (cleaned_of short) ≤ 10)%nat
  ∧ loop_body [] short = []
  ∧ parse_suggestions text = [str "Are deadlines firm?"; str "Budget?"].
Proof. vm_compute. repeat split; lia. Qed.

End ParserProperties.

(** ** Properties of the handlers *)

Section HandlerProperties.

Context {ucd : UnicodeData}.

Lemma complete_both_storage w request report_text st issued :
  report_storage (after (complete_both w request report_text st issued))
  = report_storage st.
Proof.
  unfold complete_both.
  destruct (gather _ _ _) as [[answer suggestions_text]|e]; reflexivity.
Qed.

Lemma ask_question_storage w request st :
  report_storage (after (ask_question w request st)) = report_storage st.
Proof.
  unfold ask_question.
  destruct (report_storage st !! session_id request) as [report_text|]; [|done].
  destruct (llm st) as [client|].
  - apply complete_both_storage.
  - destruct (new_OllamaLLM w _) as [client|e]; [|done].
    by rewrite complete_both_storage.
Qed.

Lemma gather_return first answer_task suggestions_task answer suggestions_text :
  gather first answer_task suggestions_task = Return (answer, suggestions_text) →
  answer_task = Return answer ∧ suggestions_task = Return suggestions_text.
Proof.
  destruct answer_task, suggestions_task; simpl; intros Heq;
    try discriminate Heq.
  by injection Heq as -> ->.
Qed.

Lemma gather_raise first answer_task suggestions_task :
  (∃ e, answer_task = Raise e) ∨ (∃ e, suggestions_task = Raise e) →
  ∃ e, gather first answer_task suggestions_task = Raise e.
Proof.
  intros [[e ->]|[e ->]].
  - destruct suggestions_task; simpl; eauto.
  - destruct answer_task; simpl; eauto.
Qed.

(** The shape of the response once both tasks are created. *)
Lemma complete_both_response w request report_text st issued :
  match response (complete_both w request report_text st issued) with
  | Ok200 content =>
      ∃ answer suggestions_text,
        ainvoke w qa_prompt report_text (question request) = Return answer
        ∧ ainvoke w followup_prompt report_text (question request)
          = Return suggestions_text
        ∧ content = AnswerBody (strip answer) (parse_suggestions suggestions_text)
  | Failed e => status_code e = 500
  end.
Proof.
  unfold complete_both.
  destruct (gather _ _ _) as [[answer suggestions_text]|e] eqn:Hgather; simpl.
  - apply gather_return in Hgather as [Ha Hs]. eauto.
  - reflexivity.
Qed.

Lemma complete_both_raise w request report_text st issued :
  (∃ e, ainvoke w qa_prompt report_text (question request) = Raise e)
  ∨ (∃ e, ainvoke w followup_prompt report_text (question request) = Raise e) →
  ∃ d, response (complete_both w request report_text st issued)
       = Failed {| status_code := 500; detail := d |}.
Proof.
  intros Hraise. apply (gather_raise (first_raised w)) in Hraise as [e He].
  unfold complete_both. rewrite He. simpl. eauto.
Qed.

(** A successful answer comes from a stored report and two successful
    completions. *)
Lemma ask_question_ok w request st content :
  response (ask_question w request st) = Ok200 content →
  ∃ report_text answer suggestions_text,
    report_storage st !! session_id request = Some report_text
    ∧ ainvoke w qa_prompt report_text (question request) = Return answer
    ∧ ainvoke w followup_prompt report_text (question request)
      = Return suggestions_text
    ∧ content = AnswerBody (strip answer) (parse_suggestions suggestions_text).
Proof.
  unfold ask_question.
  destruct (report_storage st !! session_id request) as [report_text|];
    [|discriminate].
  assert (Hboth : ∀ st' issued,
    response (complete_both w request report_text st' issued) = Ok200 content →
    ∃ report_text0 answer suggestions_text,
      Some report_text = Some report_text0
      ∧ ainvoke w qa_prompt report_text0 (question request) = Return answer
      ∧ ainvoke w followup_prompt report_text0 (question request)
        = Return suggestions_text
      ∧ content = AnswerBody (strip answer) (parse_suggestions suggestions_text)).
  { intros st' issued Hok.
    pose proof (complete_both_response w request report_text st' issued) as Hshape.
    rewrite Hok in Hshape. destruct Hshape as (answer & text & ? & ? & ?).
    exists report_text, answer, text. done. }
  destruct (llm st) as [client|]; [apply Hboth|].
  destruct (new_OllamaLLM w _) as [client|e]; [apply Hboth|discriminate].
Qed.

Lemma upload_report_stored w file content st :
  read file = Return content →
  response (upload_report w file st)
  = Ok200 (UploadBody (str "Report uploaded successfully") (uuid4 w))
  ∧ report_storage (after (upload_report w file st))
    = <[uuid4 w := decode_report content]> (report_storage st).
Proof. intros Hread. unfold upload_report. rewrite Hread. done. Qed.

Lemma root_storage st : report_storage (after (root st)) = report_storage st.
Proof. reflexivity. Qed.

(** Serving a request changes the store at most at the id it draws. *)
Lemma serve_storage_other w r st (sid : pystr) :
  drawn_id w r ≠ Some sid →
  report_storage (after (serve w r st)) !! sid = report_storage st !! sid.
Proof.
  destruct r as [|file|request]; simpl; intros Hne.
  - reflexivity.
  - unfold upload_report. destruct (read file) as [content|e]; simpl; [|done].
    apply lookup_insert_ne. congruence.
  - by rewrite ask_question_storage.
Qed.

Lemma serve_all_storage_other rs st (sid : pystr) :
  sid ∉ drawn_ids rs →
  report_storage (serve_all rs st).2 !! sid = report_storage st !! sid.
Proof.
  revert st. induction rs as [|[w r] rs IH]; intros st Hnot; simpl.
  - reflexivity.
  - destruct (serve_all rs (after (serve w r st))) as [responses final] eqn:Hrest.
    simpl. change final with (responses, final).2. rewrite <- Hrest.
    unfold drawn_ids in Hnot. simpl in Hnot.
    destruct (drawn_id w r) as [u|] eqn:Hdrawn; simpl in Hnot.
    + apply not_elem_of_cons in Hnot as [Hne Hnot].
      rewrite IH by exact Hnot. apply serve_storage_other. congruence.
    + rewrite IH by exact Hnot. apply serve_storage_other. congruence.
Qed.

Lemma serve_returned_id w r st :
  returned_id (response (serve w r st)) = drawn_id w r.
Proof.
  destruct r as [|file|request]; simpl.
  - reflexivity.
  - unfold upload_report. by destruct (read file).
  - destruct (response (ask_question w request st)) as [content|e] eqn:Hresp;
      [|done].
    apply ask_question_ok in Hresp as (? & ? & ? & _ & _ & _ & ->). done.
Qed.

Lemma serve_all_returned_ids rs st :
  omap returned_id (serve_all rs st).1 = drawn_ids rs.
Proof.
  revert st. induction rs as [|[w r] rs IH]; intros st; simpl.
  - reflexivity.
  - specialize (IH (after (serve w r st))).
    destruct (serve_all rs (after (serve w r st))) as [responses final].
    unfold drawn_ids in *. simpl in *. rewrite serve_returned_id.
    destruct (drawn_id w r); [f_equal|]; exact IH.
Qed.

Lemma serve_all_cons w r rs st :
  serve_all ((w, r) :: rs) st
  = (response (serve w r st) :: (serve_all rs (after (serve w r st))).1,
     (serve_all rs (after (serve w r st))).2).
Proof. simpl. by destruct (serve_all rs _). Qed.

Lemma drawn_ids_cons w r rs :
  drawn_ids ((w, r) :: rs)
  = match drawn_id w r with
    | Some sid => sid :: drawn_ids rs
    | None => drawn_ids rs
    end.
Proof. reflexivity. Qed.

(** When the generator never repeats itself, the upload served at position
    [k] answers with the id it drew, and the final store still maps that id
    to the text of that upload. *)
Lemma serve_all_upload_kept rs st (k : nat) w file content :
  NoDup (drawn_ids rs) →
  rs !! k = Some (w, PostUploadReport file) →
  read file = Return content →
  (serve_all rs st).1 !! k
  = Some (Ok200 (UploadBody (str "Report uploaded successfully") (uuid4 w)))
  ∧ report_storage (serve_all rs st).2 !! uuid4 w = Some (decode_report content).
Proof.
  revert st k. induction rs as [|[w0 r0] rs IH]; intros st k Hnodup Hk Hread.
  - discriminate Hk.
  - rewrite serve_all_cons. rewrite drawn_ids_cons in Hnodup.
    destruct k as [|k]; simpl in Hk; cbn [fst snd].
    + injection Hk as -> ->. simpl in Hnodup. rewrite Hread in Hnodup.
      apply NoDup_cons in Hnodup as [Hfresh _].
      change (serve w (PostUploadReport file) st) with (upload_report w file st).
      destruct (upload_report_stored w file content st Hread) as [Hresp Hstore].
      split; [by rewrite Hresp|].
      rewrite serve_all_storage_other by exact Hfresh.
      rewrite Hstore. apply lookup_insert_eq.
    + apply IH; [|exact Hk|exact Hread].
      destruct (drawn_id w0 r0); [|exact Hnodup].
      by apply NoDup_cons in Hnodup as [_ ?].
Qed.

(** The scenario of the report about module A: the question is answered with
    the trimmed completion and the three parsed suggestions, after two
    completions have been issued on the stored report. *)
Example ask_about_uploaded_report :
  let run := ask_question (world_up id_b) (blocking_question id_a) one_report in
  response run
  = Ok200 (AnswerBody (str "API access is blocking progress.")
             [str "Is X on track?"; str "What about Y?"; str "Will Z ship?"])
  ∧ events run
    = [ Completion qa_prompt
          (str "Week 1: finished module A. Blocked on API access.")
          (str "What is blocking progress?");
        Completion followup_prompt
          (str "Week 1: finished module A. Blocked on API access.")
          (str "What is blocking progress?") ].
Proof. vm_compute. split; reflexivity. Qed.

(** C5: what an upload stores under the session id it returns is the
    uploaded text, unchanged.  The id it returns is the id drawn from the
    UUID generator, as it is and without a look at the store: over any
    sequence of requests the ids returned are the ids drawn, so that they
    are pairwise distinct exactly when the draws are; and when the draws are
    pairwise distinct, each returned id still leads to the text of its own
    upload in the final store. *)
Theorem report_store_round_trip_drawn :
  (∀ w file content st,
     read file = Return content →
     returned_id (response (upload_report w file st)) = Some (uuid4 w)
     ∧ report_storage (after (upload_report w file st)) !! uuid4 w
       = Some (decode_report content))
  ∧ (∀ rs st,
       omap returned_id (serve_all rs st).1 = drawn_ids rs
       ∧ (NoDup (omap returned_id (serve_all rs st).1) ↔ NoDup (drawn_ids rs)))
  ∧ (∀ rs st,
       NoDup (drawn_ids rs) →
       ∀ (k : nat) w file content,
         rs !! k = Some (w, PostUploadReport file) →
         read file = Return content →
         returned_id <$> (serve_all rs st).1 !! k = Some (Some (uuid4 w))
         ∧ report_storage (serve_all rs st).2 !! uuid4 w
           = Some (decode_report content)).
Proof.
  split; [|split].
  - intros w file content st Hread.
    destruct (upload_report_stored w file content st Hread) as [Hresp Hstore].
    rewrite Hresp, Hstore. split; [done|]. apply lookup_insert_eq.
  - intros rs st. by rewrite serve_all_returned_ids.
  - intros rs st Hnodup k w file content Hk Hread.
    destruct (serve_all_upload_kept rs st k w file content Hnodup Hk Hread)
      as [Hresp Hstore].
    by rewrite Hresp.
Qed.

(** C6: for every session id absent from the report store and every
    question, [ask_question] fails with status 404, whatever the question
    says, without having issued any call to the model runtime and without
    having changed the state. *)
Theorem ask_question_unknown_session w request st :
  report_storage st !! session_id request = None →
  response (ask_question w request st)
  = Failed {| status_code := 404;
              detail := str "No report found. Please upload a report first." |}
  ∧ status_of (response (ask_question w request st)) = 404
  ∧ events (ask_question w request st) = []
  ∧ after (ask_question w request st) = st.
Proof. intros Hunknown. unfold ask_question. by rewrite Hunknown. Qed.

(** C7: for a known session, if the answer completion or the follow-up
    completion raises, the request fails with status 500; a response with
    status 200 carries both the answer and the suggestions and implies that
    both completions returned; there is no third kind of response, so no
    partial result. *)
Theorem ask_question_all_or_nothing w request st report_text :
  report_storage st !! session_id request = Some report_text →
  ((∃ e, ainvoke w qa_prompt report_text (question request) = Raise e)
   ∨ (∃ e, ainvoke w followup_prompt report_text (question request) = Raise e) →
   ∃ d, response (ask_question w request st)
        = Failed {| status_code := 500; detail := d |})
  ∧ (∀ content,
       response (ask_question w request st) = Ok200 content →
       ∃ answer suggestions_text,
         ainvoke w qa_prompt report_text (question request) = Return answer
         ∧ ainvoke w followup_prompt report_text (question request)
           = Return suggestions_text
         ∧ content
           = AnswerBody (strip answer) (parse_suggestions suggestions_text))
  ∧ (status_of (response (ask_question w request st)) = 200
     ∨ status_of (response (ask_question w request st)) = 500).
Proof.
  intros Hknown. split; [|split].
  - intros Hraise. unfold ask_question. rewrite Hknown.
    destruct (llm st) as [client|]; [by apply complete_both_raise|].
    destruct (new_OllamaLLM w _) as [client|e];
      [by apply complete_both_raise|simpl; eauto].
  - intros content Hok.
    apply ask_question_ok in Hok as (text & answer & stext & Hlook & ? & ? & ?).
    rewrite Hknown in Hlook. injection Hlook as <-. eauto.
  - unfold ask_question. rewrite Hknown.
    assert (Hboth : ∀ st' issued,
      status_of (response (complete_both w request report_text st' issued)) = 200
      ∨ status_of (response (complete_both w request report_text st' issued)) = 500).
    { intros st' issued.
      pose proof (complete_both_response w request report_text st' issued) as Hshape.
      destruct (response _) as [content|e]; simpl; [by left|by right]. }
    destruct (llm st) as [client|]; [apply Hboth|].
    destruct (new_OllamaLLM w _) as [client|e]; [apply Hboth|by right].
Qed.

(** C8: uploading a file whose bytes are not valid UTF-8 succeeds: the
    UTF-8 decoder having failed, the bytes are decoded as Latin-1, each byte
    becoming the code point of its value, and stored under the new session
    id; the response has status 200 and carries that id. *)
Theorem upload_report_latin1_fallback w file content st :
  read file = Return content →
  utf8_decode content = None →
  response (upload_report w file st)
  = Ok200 (UploadBody (str "Report uploaded successfully") (uuid4 w))
  ∧ status_of (response (upload_report w file st)) = 200
  ∧ report_storage (after (upload_report w file st))
    = <[uuid4 w := latin1_decode content]> (report_storage st)
  ∧ report_storage (after (upload_report w file st)) !! uuid4 w
    = Some (map Byte.to_N content).
Proof.
  intros Hread Hinvalid.
  destruct (upload_report_stored w file content st Hread) as [Hresp Hstore].
  assert (Htext : decode_report content = latin1_decode content).
  { unfold decode_report. by rewrite Hinvalid. }
  rewrite Hresp, Hstore, Htext. repeat split. apply lookup_insert_eq.
Qed.

(** C9: the report store is changed by the upload only: the root endpoint
    and [ask_question], whatever its response, leave it exactly as it was.
    A request changes the store at the id it draws from the UUID generator
    and nowhere else: the text of a session is the same after every request
    that does not draw the id of that session, and an upload stores its
    text under the id it draws, whatever was there. *)
Theorem report_store_frame_drawn :
  (∀ st, report_storage (after (root st)) = report_storage st)
  ∧ (∀ w request st,
       report_storage (after (ask_question w request st)) = report_storage st)
  ∧ (∀ w r st (sid : pystr),
       drawn_id w r ≠ Some sid →
       report_storage (after (serve w r st)) !! sid = report_storage st !! sid)
  ∧ (∀ w file content st,
       read file = Return content →
       report_storage (after (serve w (PostUploadReport file) st))
       = <[uuid4 w := decode_report content]> (report_storage st)).
Proof.
  split; [|split; [|split]].
  - apply root_storage.
  - apply ask_question_storage.
  - intros w r st sid. apply serve_storage_other.
  - intros w file content st Hread.
    by destruct (upload_report_stored w file content st Hread) as [_ ?].
Qed.

(** C10: for every input string [parse_suggestions] returns between one and
    three strings: when the loop has accepted no line, the result is the
    fallback triple; hence a successful response of [ask_question] always
    carries at least one suggestion. *)
Theorem parse_suggestions_nonempty (suggestions_text : pystr) :
  (1 ≤ length (parse_suggestions suggestions_text) ≤ 3)%nat
  ∧ (collect (stripped_lines suggestions_text) = [] →
     parse_suggestions suggestions_text = fallback)
  ∧ (∀ w request st answer suggestions,
       response (ask_question w request st) = Ok200 (AnswerBody answer suggestions) →
       (1 ≤ length suggestions ≤ 3)%nat).
Proof.
  split; [|split].
  - split; [apply parse_suggestions_length_ge|apply parse_suggestions_length_le].
  - intros Hnone. unfold parse_suggestions. by rewrite Hnone.
  - intros w request st answer suggestions Hok.
    apply ask_question_ok in Hok as (? & ? & text & _ & _ & _ & Hbody).
    injection Hbody as _ ->.
    split; [apply parse_suggestions_length_ge|apply parse_suggestions_length_le].
Qed.

End HandlerProperties.

(** ** The theorems at concrete inputs *)

Lemma parse_suggestions_total_witness :
  Forall (λ line, numbered (ucd := ascii_only) line = false)
    (stripped_lines unnumbered_text)
  ∧ parse_suggestions (ucd := ascii_only) unnumbered_text = fallback.
Proof.
  assert (Hlines : Forall (λ line, numbered (ucd := ascii_only) line = false)
                     (stripped_lines unnumbered_text)).
  { vm_compute. repeat constructor. }
  split; [exact Hlines|].
  apply (proj2 (parse_suggestions_total (ucd := ascii_only) unnumbered_text)).
  right. exact Hlines.
Defined.

Lemma report_store_round_trip_drawn_witness :
  NoDup (drawn_ids two_uploads)
  ∧ returned_id
      <$> (serve_all (ucd := ascii_only) two_uploads (startup (world_up id_a))).1
          !! 2%nat
    = Some (Some id_b)
  ∧ report_storage
      (serve_all (ucd := ascii_only) two_uploads (startup (world_up id_a))).2
    !! id_b
    = Some (decode_report latin1_bytes).
Proof.
  assert (Hnodup : NoDup (drawn_ids two_uploads)).
  { apply (bool_decide_unpack _). vm_compute. exact I. }
  split; [exact Hnodup|].
  exact (proj2 (proj2 (report_store_round_trip_drawn (ucd := ascii_only)))
           two_uploads (startup (world_up id_a)) Hnodup
           2%nat (world_up id_b) latin1_file latin1_bytes eq_refl eq_refl).
Defined.

(** Two uploads that draw the same id are answered with the same session
    id, and the text of the first is gone. *)
Lemma report_store_same_id_twice :
  omap returned_id
    (serve_all (ucd := ascii_only) same_id_twice (startup (world_up id_a))).1
  = [id_a; id_a]
  ∧ ¬ NoDup (omap returned_id
               (serve_all (ucd := ascii_only) same_id_twice
                  (startup (world_up id_a))).1)
  ∧ report_storage
      (serve_all (ucd := ascii_only) same_id_twice (startup (world_up id_a))).2
    !! id_a
    = Some (decode_report latin1_bytes)
  ∧ decode_report latin1_bytes ≠ decode_report report_bytes.
Proof.
  assert (Hids : omap returned_id
                   (serve_all (ucd := ascii_only) same_id_twice
                      (startup (world_up id_a))).1
                 = [id_a; id_a]) by reflexivity.
  split; [exact Hids|]. split; [|split].
  - rewrite Hids. intros Hnodup.
    apply NoDup_cons in Hnodup as [Hnotin _].
    apply Hnotin. apply list_elem_of_here.
  - vm_compute. reflexivity.
  - discriminate.
Qed.

Lemma ask_question_unknown_session_witness :
  report_storage (startup (world_up id_a)) !! id_b = None
  ∧ status_of (response (ask_question (ucd := ascii_only) (world_up id_a)
                           (blocking_question id_b) (startup (world_up id_a))))
    = 404
  ∧ events (ask_question (ucd := ascii_only) (world_up id_a)
              (blocking_question id_b) (startup (world_up id_a)))
    = [].
Proof.
  assert (Hunknown : report_storage (startup (world_up id_a))
                     !! session_id (blocking_question id_b) = None).
  { apply lookup_empty. }
  destruct (ask_question_unknown_session (ucd := ascii_only) (world_up id_a)
              (blocking_question id_b) (startup (world_up id_a)) Hunknown)
    as (_ & Hstatus & Hevents & _).
  split; [exact Hunknown|]. split; [exact Hstatus|exact Hevents].
Defined.

Lemma one_report_lookup :
  report_storage one_report !! id_a = Some (decode_report report_bytes).
Proof. apply lookup_insert_eq. Qed.

Lemma ask_question_all_or_nothing_witness :
  report_storage one_report !! id_a = Some (decode_report report_bytes)
  ∧ ∃ d, response (ask_question (ucd := ascii_only) (world_down id_b)
                     (blocking_question id_a) one_report)
         = Failed {| status_code := 500; detail := d |}.
Proof.
  split; [exact one_report_lookup|].
  apply (proj1 (ask_question_all_or_nothing (ucd := ascii_only) (world_down id_b)
                  (blocking_question id_a) one_report
                  (decode_report report_bytes) one_report_lookup)).
  right. eexists. reflexivity.
Defined.

Lemma upload_report_latin1_fallback_witness :
  utf8_decode latin1_bytes = None
  ∧ status_of (response (upload_report (world_up id_b) latin1_file one_report)) = 200
  ∧ report_storage (after (upload_report (world_up id_b) latin1_file one_report))
    !! id_b
    = Some [67; 97; 102; 233].
Proof.
  assert (Hinvalid : utf8_decode latin1_bytes = None) by reflexivity.
  destruct (upload_report_latin1_fallback (world_up id_b) latin1_file latin1_bytes
              one_report eq_refl Hinvalid) as (_ & Hstatus & _ & Hstored).
  split; [exact Hinvalid|]. split; [exact Hstatus|exact Hstored].
Defined.

Lemma report_store_frame_drawn_witness :
  drawn_id (world_up id_b) (PostUploadReport latin1_file) ≠ Some id_a
  ∧ report_storage
      (after (serve (ucd := ascii_only) (world_up id_b)
                (PostUploadReport latin1_file) one_report))
    !! id_a
    = report_storage one_report !! id_a.
Proof.
  assert (Hother : drawn_id (world_up id_b) (PostUploadReport latin1_file)
                   ≠ Some id_a) by discriminate.
  split; [exact Hother|].
  exact (proj1 (proj2 (proj2 (report_store_frame_drawn (ucd := ascii_only))))
           (world_up id_b) (PostUploadReport latin1_file) one_report id_a Hother).
Defined.

(** An upload that draws the id of an existing session replaces the text
    of that session. *)
Lemma report_store_text_overwritten :
  report_storage one_report !! id_a = Some (decode_report report_bytes)
  ∧ report_storage
      (after (serve (ucd := ascii_only) (world_up id_a)
                (PostUploadReport latin1_file) one_report))
    !! id_a
    = Some (decode_report latin1_bytes)
  ∧ decode_report latin1_bytes ≠ decode_report report_bytes.
Proof.
  split; [apply lookup_insert_eq|]. split; [|discriminate].
  apply lookup_insert_eq.
Qed.

Lemma parse_suggestions_nonempty_witness :
  collect (ucd := ascii_only) (stripped_lines unnumbered_text) = []
  ∧ parse_suggestions (ucd := ascii_only) unnumbered_text = fallback.
Proof.
  assert (Hnone : collect (ucd := ascii_only) (stripped_lines unnumbered_text) = [])
    by reflexivity.
  split; [exact Hnone|].
  exact (proj1 (proj2 (parse_suggestions_nonempty (ucd := ascii_only)
                         unnumbered_text)) Hnone).
Defined.

(** ** Trimming *)

Lemma lstrip_starts_clean (s : pystr) : starts_clean (lstrip s) = true.
Proof.
  induction s as [|c s IH]; simpl; [done|].
  destruct (isspace c) eqn:Hc; [exact IH|]. simpl. by rewrite Hc.
Qed.

Lemma lstrip_clean (s : pystr) : starts_clean s = true → lstrip s = s.
Proof.
  destruct s as [|c s]; simpl; [done|].
  intros Hc. apply negb_true_iff in Hc. by rewrite Hc.
Qed.

Lemma lstrip_split (s : pystr) :
  ∃ pre, s = pre ++ lstrip s ∧ all_space pre = true.
Proof.
  induction s as [|c s (pre & Hs & Hpre)]; simpl.
  - by exists [].
  - destruct (isspace c) eqn:Hc.
    + exists (c :: pre). simpl. rewrite Hc, Hpre. by rewrite <- Hs.
    + by exists [].
Qed.

Lemma lstrip_nil (s : pystr) : lstrip s = [] ↔ all_space s = true.
Proof.
  induction s as [|c s IH]; simpl; [done|].
  destruct (isspace c); simpl; [exact IH|]. split; discriminate.
Qed.

Lemma all_space_rev (s : pystr) : all_space (rev s) = all_space s.
Proof.
  unfold all_space. induction s as [|c s IH]; simpl; [done|].
  rewrite forallb_app, IH. simpl. rewrite andb_true_r. apply andb_comm.
Qed.

Lemma all_space_app (s t : pystr) :
  all_space (s ++ t) = all_space s && all_space t.
Proof. apply forallb_app. Qed.

Lemma starts_clean_app (s t : pystr) :
  s ≠ [] → starts_clean (s ++ t) = starts_clean s.
Proof. by destruct s. Qed.

(** Trimming the front keeps a clean end. *)
Lemma lstrip_ends_clean (s : pystr) :
  ends_clean s = true → ends_clean (lstrip s) = true.
Proof.
  intros Hend. destruct (lstrip_split s) as (pre & Hs & _).
  destruct (lstrip s) as [|c t] eqn:Ht; [done|].
  unfold ends_clean in *. rewrite Hs, rev_app_distr in Hend.
  rewrite starts_clean_app in Hend; [exact Hend|].
  simpl. by destruct (rev t).
Qed.

Lemma rstrip_split (s : pystr) :
  ∃ post, s = rstrip s ++ post ∧ all_space post = true.
Proof.
  unfold rstrip. destruct (lstrip_split (rev s)) as (pre & Hs & Hpre).
  exists (rev pre). split.
  - rewrite <- rev_app_distr, <- Hs. by rewrite rev_involutive.
  - by rewrite all_space_rev.
Qed.

Lemma strip_split (s : pystr) :
  ∃ pre post,
    s = pre ++ strip s ++ post ∧ all_space pre = true ∧ all_space post = true.
Proof.
  destruct (lstrip_split s) as (pre & Hs & Hpre).
  destruct (rstrip_split (lstrip s)) as (post & Ht & Hpost).
  exists pre, post. unfold strip. by rewrite <- Ht.
Qed.

Lemma strip_ends_clean (s : pystr) : ends_clean (strip s) = true.
Proof.
  unfold strip, rstrip, ends_clean. rewrite rev_involutive.
  apply lstrip_starts_clean.
Qed.

Lemma strip_starts_clean (s : pystr) : starts_clean (strip s) = true.
Proof.
  unfold strip, rstrip.
  change (ends_clean (lstrip (rev (lstrip s))) = true).
  apply lstrip_ends_clean. unfold ends_clean. rewrite rev_involutive.
  apply lstrip_starts_clean.
Qed.

Lemma strip_clean (s : pystr) :
  starts_clean s = true → ends_clean s = true → strip s = s.
Proof.
  intros Hstart Hend. unfold strip, rstrip.
  rewrite (lstrip_clean s Hstart), (lstrip_clean (rev s) Hend).
  apply rev_involutive.
Qed.

Lemma strip_nil (s : pystr) : strip s = [] ↔ all_space s = true.
Proof.
  unfold strip, rstrip. split.
  - intros Hnil. apply (f_equal (@rev N)) in Hnil.
    rewrite rev_involutive in Hnil. simpl in Hnil.
    apply lstrip_nil in Hnil. rewrite all_space_rev in Hnil.
    destruct (lstrip_split s) as (pre & Hs & Hpre).
    rewrite Hs, all_space_app, Hpre, Hnil. done.
  - intros Hall. apply lstrip_nil in Hall. by rewrite Hall.
Qed.

(** ** Lines *)

Lemma split_nonempty (sep : N) (s : pystr) : split sep s ≠ [].
Proof.
  induction s as [|c s IH]; simpl; [done|].
  destruct (c =? sep); [done|]. by destruct (split sep s).
Qed.

(** Splitting at a separator that is written out. *)
Lemma split_app (sep : N) (a b : pystr) :
  split sep (a ++ sep :: b) = split sep a ++ split sep b.
Proof.
  induction a as [|c a IH]; simpl.
  - by rewrite N.eqb_refl.
  - destruct (c =? sep); [by rewrite IH|].
    rewrite IH. pose proof (split_nonempty sep a) as Hne.
    by destruct (split sep a).
Qed.

Lemma split_no_separator (sep : N) (s : pystr) :
  Forall (λ piece, sep ∉ piece) (split sep s).
Proof.
  induction s as [|c s IH]; simpl.
  - constructor; [apply not_elem_of_nil|constructor].
  - destruct (c =? sep) eqn:Hc.
    + constructor; [apply not_elem_of_nil|exact IH].
    + apply N.eqb_neq in Hc. pose proof (split_nonempty sep s) as Hne.
      destruct (split sep s) as [|piece pieces]; [done|].
      apply Forall_cons in IH as [Hpiece Hpieces].
      constructor; [|exact Hpieces].
      rewrite not_elem_of_cons. split; [congruence|exact Hpiece].
Qed.

Lemma split_all_space (sep : N) (s : pystr) :
  all_space s = true → Forall (λ piece, all_space piece = true) (split sep s).
Proof.
  induction s as [|c s IH]; simpl; intros Hall.
  - by constructor.
  - apply andb_true_iff in Hall as [Hc Hs]. specialize (IH Hs).
    destruct (c =? sep); [by constructor|].
    pose proof (split_nonempty sep s) as Hne.
    destruct (split sep s) as [|piece pieces]; [done|].
    apply Forall_cons in IH as [Hpiece Hpieces].
    constructor; [|exact Hpieces]. simpl. by rewrite Hc.
Qed.

Lemma truthy_nil {A} (l : list A) : truthy l = false ↔ l = [].
Proof. by destruct l. Qed.

Lemma truthy_take {A} (n : nat) (l : list A) :
  truthy (take (S n) l) = truthy l.
Proof. by destruct l. Qed.

Section LineProperties.

Context {ucd : UnicodeData}.

Lemma stripped_lines_app (a b : pystr) :
  stripped_lines (a ++ nl ++ b) = stripped_lines a ++ stripped_lines b.
Proof.
  unfold stripped_lines, nl. simpl.
  by rewrite split_app, filter_app, map_app.
Qed.

Lemma stripped_lines_all_space (w : pystr) :
  all_space w = true → stripped_lines w = [].
Proof.
  intros Hall. unfold stripped_lines.
  pose proof (split_all_space 10 w Hall) as Hpieces.
  induction Hpieces as [|piece pieces Hpiece _ IH]; [done|].
  rewrite filter_cons_False; [exact IH|].
  apply strip_nil in Hpiece. rewrite Hpiece. discriminate.
Qed.

Lemma stripped_lines_elem (text line : pystr) :
  line ∈ stripped_lines text →
  ∃ piece, piece ∈ split 10 text ∧ line = strip piece ∧ line ≠ [].
Proof.
  unfold stripped_lines. intros Hin.
  apply list_elem_of_fmap in Hin as (piece & -> & Hpiece).
  apply list_elem_of_filter in Hpiece as [Htruthy Hpiece].
  exists piece. split; [exact Hpiece|]. split; [done|].
  by destruct (strip piece).
Qed.

Lemma stripped_line_clean (text line : pystr) :
  line ∈ stripped_lines text →
  line ≠ [] ∧ starts_clean line = true ∧ ends_clean line = true ∧ 10 ∉ line.
Proof.
  intros Hline.
  apply stripped_lines_elem in Hline as (piece & Hpiece & -> & Hne).
  split; [exact Hne|].
  split; [apply strip_starts_clean|].
  split; [apply strip_ends_clean|].
  pose proof (split_no_separator 10 text) as Hsep.
  rewrite Forall_forall in Hsep. specialize (Hsep piece Hpiece).
  destruct (strip_split piece) as (pre & post & Heq & _).
  intros Hin. apply Hsep. rewrite Heq.
  rewrite !elem_of_app. auto.
Qed.

(** X4: every line that the loop of [parse_suggestions] iterates over is
    non-empty, neither begins nor ends with whitespace, and contains no
    newline character. *)
Theorem stripped_lines_trimmed (text : pystr) :
  Forall (λ line,
            line ≠ []
            ∧ starts_clean line = true
            ∧ ends_clean line = true
            ∧ 10 ∉ line)
    (stripped_lines text).
Proof.
  apply Forall_forall. intros line Hline.
  exact (stripped_line_clean text line Hline).
Qed.

(** X6: text made of whitespace only, blank lines and a trailing or leading
    newline included, contributes nothing: removing it between, after or
    before other text leaves the result of [parse_suggestions] unchanged. *)
Theorem parse_suggestions_blank_text (a w b : pystr) :
  all_space w = true →
  parse_suggestions (a ++ nl ++ w ++ nl ++ b) = parse_suggestions (a ++ nl ++ b)
  ∧ parse_suggestions (a ++ nl ++ w) = parse_suggestions a
  ∧ parse_suggestions (w ++ nl ++ b) = parse_suggestions b
  ∧ parse_suggestions w = fallback.
Proof.
  intros Hall. pose proof (stripped_lines_all_space w Hall) as Hw.
  unfold parse_suggestions.
  rewrite !stripped_lines_app, Hw. simpl. by rewrite app_nil_r.
Qed.

End LineProperties.

(** ** The loop of the parser *)

Section LoopProperties.

Context {ucd : UnicodeData}.

(** The contribution of a line as a list. *)
Lemma loop_body_accepted (questions : list pystr) (line : pystr) :
  is_skipped questions line = false →
  loop_body questions line = questions ++ option_list (accepted line).
Proof.
  intros Hskip. unfold loop_body, accepted. rewrite Hskip. cbv zeta.
  destruct (truthy (cleaned_of line)); simpl; [|by rewrite app_nil_r].
  destruct (contains 63 (cleaned_of line)); simpl; [done|].
  destruct (10 <? length (cleaned_of line))%nat; simpl; [done|].
  by rewrite app_nil_r.
Qed.

(** The loop only ever appends. *)
Lemma loop_body_extends (questions : list pystr) (line : pystr) :
  ∃ more, loop_body questions line = questions ++ more.
Proof.
  destruct (is_skipped questions line) eqn:Hskip.
  - exists []. unfold loop_body. rewrite Hskip. by rewrite app_nil_r.
  - eexists. by apply loop_body_accepted.
Qed.

Lemma fold_loop_body_extends (lines questions : list pystr) :
  ∃ more, fold_left loop_body lines questions = questions ++ more.
Proof.
  revert questions. induction lines as [|line lines IH]; intros questions; simpl.
  - exists []. by rewrite app_nil_r.
  - destruct (loop_body_extends questions line) as [more1 ->].
    destruct (IH (questions ++ more1)) as [more2 ->].
    exists (more1 ++ more2). by rewrite app_assoc.
Qed.

Lemma numbered_questions_cons (line : pystr) (lines : list pystr) :
  numbered_questions (line :: lines)
  = (if numbered line then option_list (accepted line) else [])
    ++ numbered_questions lines.
Proof.
  unfold numbered_questions. destruct (numbered line) eqn:Hnum.
  - rewrite filter_cons_True by exact Hnum. simpl.
    by destruct (accepted line).
  - rewrite filter_cons_False; [done|]. by rewrite Hnum.
Qed.

Lemma numbered_questions_app (l1 l2 : list pystr) :
  numbered_questions (l1 ++ l2) = numbered_questions l1 ++ numbered_questions l2.
Proof. unfold numbered_questions. by rewrite filter_app, omap_app. Qed.

(** Up to the first three entries, the loop collects the questions of the
    numbered lines. *)
Lemma fold_loop_body_take (lines questions : list pystr) :
  take 3 (fold_left loop_body lines questions)
  = take 3 (questions ++ numbered_questions lines).
Proof.
  revert questions. induction lines as [|line lines IH]; intros questions; simpl.
  - unfold numbered_questions. simpl. by rewrite app_nil_r.
  - rewrite numbered_questions_cons.
    destruct (is_skipped questions line) eqn:Hskip.
    + unfold loop_body. rewrite Hskip.
      unfold is_skipped in Hskip. apply andb_true_iff in Hskip as [Hnum _].
      apply negb_true_iff in Hnum. rewrite Hnum. simpl. apply IH.
    + rewrite (loop_body_accepted _ _ Hskip).
      unfold is_skipped in Hskip. apply andb_false_iff in Hskip as [Hnum|Hlen].
      * apply negb_false_iff in Hnum. rewrite Hnum, IH. by rewrite app_assoc.
      * apply Nat.ltb_ge in Hlen.
        destruct (fold_loop_body_extends lines
                    (questions ++ option_list (accepted line))) as [more ->].
        rewrite <- !app_assoc. by rewrite !take_app_le.
Qed.

Lemma collect_take (lines : list pystr) :
  take 3 (collect lines) = take 3 (numbered_questions lines).
Proof. apply (fold_loop_body_take lines []). Qed.

Lemma collect_truthy (lines : list pystr) :
  truthy (collect lines) = truthy (numbered_questions lines).
Proof.
  rewrite <- (truthy_take 2 (collect lines)).
  rewrite <- (truthy_take 2 (numbered_questions lines)).
  by rewrite collect_take.
Qed.

Lemma collect_app (l1 l2 : list pystr) :
  collect (l1 ++ l2) = fold_left loop_body l2 (collect l1).
Proof. unfold collect. apply fold_left_app. Qed.

(** X1: the result of [parse_suggestions] is made from the numbered lines
    alone: it is the first three of the questions accepted among the
    numbered lines, or the fallback when there is none.  The lines without
    a number that the loop examines once three questions are collected never
    reach the result. *)
Theorem parse_suggestions_numbered_only (text : pystr) :
  parse_suggestions text
  = (let questions := numbered_questions (stripped_lines text) in
     if truthy questions then take 3 questions else fallback).
Proof.
  unfold parse_suggestions. cbv zeta.
  by rewrite collect_truthy, collect_take.
Qed.

(** X2: text put in front of the items is ignored as long as none of its
    lines is numbered. *)
Theorem parse_suggestions_skips_preamble (preamble text : pystr) :
  Forall (λ line, numbered line = false) (stripped_lines preamble) →
  parse_suggestions (preamble ++ nl ++ text) = parse_suggestions text.
Proof.
  intros Hpre. unfold parse_suggestions.
  rewrite stripped_lines_app, collect_app.
  by rewrite (collect_unnumbered _ Hpre).
Qed.

(** X3: once the loop has three questions, the rest of the input does not
    matter: whatever follows, numbered or not, the result is the same. *)
Theorem parse_suggestions_first_three (text rest : pystr) :
  (3 ≤ length (collect (stripped_lines text)))%nat →
  parse_suggestions (text ++ nl ++ rest) = parse_suggestions text.
Proof.
  intros Hthree. unfold parse_suggestions.
  rewrite stripped_lines_app, collect_app.
  destruct (fold_loop_body_extends (stripped_lines rest)
              (collect (stripped_lines text))) as [more ->].
  rewrite take_app_le by exact Hthree.
  destruct (collect (stripped_lines text)); [simpl in Hthree; lia|done].
Qed.

End LoopProperties.

(** ** What the parser returns *)

Lemma ends_clean_drop (s : pystr) (k : nat) :
  ends_clean s = true → (k < length s)%nat → all_space (drop k s) = false.
Proof.
  intros Hend Hk. destruct (all_space (drop k s)) eqn:Hall; [|done].
  unfold ends_clean in Hend.
  rewrite <- (take_drop k s), rev_app_distr in Hend.
  assert (Hne : rev (drop k s) ≠ []).
  { intros Hnil. apply (f_equal length) in Hnil.
    rewrite length_rev, length_drop in Hnil. simpl in Hnil. lia. }
  rewrite starts_clean_app in Hend by exact Hne.
  rewrite <- all_space_rev in Hall.
  destruct (rev (drop k s)) as [|c t]; [done|].
  simpl in Hend, Hall. apply negb_true_iff in Hend.
  rewrite Hend in Hall. discriminate.
Qed.

Lemma existsb_false_lookup {A} (f : A → bool) (l : list A) :
  (∀ (i : nat) x, l !! i = Some x → f x = false) → existsb f l = false.
Proof.
  induction l as [|y l IH]; intros Hall; simpl; [done|].
  rewrite (Hall 0%nat y eq_refl). simpl.
  apply IH. intros i x Hi. apply (Hall (S i) x Hi).
Qed.

Section ResultProperties.

Context {ucd : UnicodeData}.

Lemma first_letter_Some (line : pystr) (k : nat) (char : N) :
  first_letter line = Some (k, char) →
  (k ≤ 6)%nat
  ∧ line !! k = Some char
  ∧ isalpha char = true
  ∧ existsb isalpha (take k line) = false.
Proof.
  unfold first_letter. intros Hfind.
  apply list_find_Some in Hfind as (Hk & Hchar & Hfirst).
  apply lookup_take_Some in Hk as [Hk Hlt].
  split; [lia|]. split; [exact Hk|]. split; [exact Hchar|].
  apply existsb_false_lookup. intros i x Hi.
  apply lookup_take_Some in Hi as [Hi Hik].
  destruct (isalpha x) eqn:Hx; [|done].
  exfalso. apply (Hfirst i x); [|lia|exact Hx].
  rewrite lookup_take_lt by lia. exact Hi.
Qed.

Lemma first_letter_None (line : pystr) :
  first_letter line = None → existsb isalpha (take 7 line) = false.
Proof.
  unfold first_letter. intros Hfind.
  apply list_find_None in Hfind. rewrite Forall_forall in Hfind.
  apply existsb_false_lookup. intros i x Hi.
  destruct (isalpha x) eqn:Hx; [|done].
  exfalso. apply (Hfind x); [|exact Hx].
  apply list_elem_of_lookup. eauto.
Qed.

(** The prefix strip looks at the first seven characters of the line:
    when one of them is a letter, the line is cut at the first such letter;
    otherwise, a letter further on or none at all, the line is kept as it
    is. *)
Theorem cleaned_of_seven_characters (line : pystr) :
  cleaned_of line
  = match first_letter line with
    | Some (k, _) => drop k line
    | None => line
    end.
Proof.
  destruct (first_letter line) as [[k char]|] eqn:Hfind.
  - apply first_letter_Some in Hfind as (Hk & Hchar & Halpha & Hbefore).
    by apply (cleaned_of_first_letter line k char).
  - apply first_letter_None in Hfind. by apply cleaned_of_window.
Qed.

(** The cleaned line is the line without at most six leading characters,
    and never without all of them. *)
Lemma cleaned_of_suffix (line : pystr) :
  line ≠ [] →
  ∃ k : nat, (k ≤ 6)%nat ∧ (k < length line)%nat ∧ cleaned_of line = drop k line.
Proof.
  intros Hne. destruct (first_letter line) as [[k char]|] eqn:Hfind.
  - apply first_letter_Some in Hfind as (Hk & Hchar & Halpha & Hbefore).
    exists k. split; [exact Hk|]. split.
    + apply lookup_lt_is_Some. eauto.
    + by apply (cleaned_of_first_letter line k char).
  - apply first_letter_None in Hfind. exists 0%nat.
    split; [lia|]. split; [destruct line; [done|simpl; lia]|].
    by apply cleaned_of_window.
Qed.

Lemma accepted_Some (line q : pystr) :
  accepted line = Some q → q = strip (cleaned_of line).
Proof.
  unfold accepted. cbv zeta.
  destruct (truthy _ && _); [|discriminate]. by intros [= <-].
Qed.

Lemma fallback_clean (q : pystr) :
  q ∈ fallback → q ≠ [] ∧ starts_clean q = true ∧ ends_clean q = true.
Proof.
  unfold fallback. rewrite !elem_of_cons, elem_of_nil.
  intros [->|[->|[->|[]]]]; by vm_compute.
Qed.

(** X5: every string that [parse_suggestions] returns is non-empty and
    neither begins nor ends with whitespace; it is one of the three fallback
    questions, or it comes from a numbered line of the input: that line
    without at most six of its leading characters, trimmed. *)
Theorem parse_suggestions_elements (text q : pystr) :
  q ∈ parse_suggestions text →
  (q ≠ [] ∧ starts_clean q = true ∧ ends_clean q = true)
  ∧ (q ∈ fallback
     ∨ ∃ (line : pystr) (k : nat),
         line ∈ stripped_lines text
         ∧ numbered line = true
         ∧ (k ≤ 6)%nat
         ∧ (k < length line)%nat
         ∧ q = strip (drop k line)).
Proof.
  unfold parse_suggestions. cbv zeta.
  rewrite collect_truthy, collect_take.
  destruct (truthy (numbered_questions (stripped_lines text)));
    [|intros Hq; split; [by apply fallback_clean|by left]].
  intros Hq. apply elem_of_take in Hq as (i & Hq & _).
  apply list_elem_of_lookup_2 in Hq.
  apply list_elem_of_omap in Hq as (line & Hline & Hacc).
  apply list_elem_of_filter in Hline as [Hnum Hline].
  apply accepted_Some in Hacc.
  destruct (stripped_line_clean text line Hline) as (Hne & _ & Hend & _).
  destruct (cleaned_of_suffix line Hne) as (k & Hk & Hlt & Hclean).
  rewrite Hclean in Hacc. split.
  - split; [|split].
    + intros Hnil. rewrite Hnil in Hacc. symmetry in Hacc.
      apply strip_nil in Hacc.
      by rewrite (ends_clean_drop line k Hend Hlt) in Hacc.
    + rewrite Hacc. apply strip_starts_clean.
    + rewrite Hacc. apply strip_ends_clean.
  - right. exists line, k. done.
Qed.

End ResultProperties.

(** ** Sessions over the life of the process *)

Section SessionProperties.

Context {ucd : UnicodeData}.

Lemma serve_storage w r st :
  report_storage (after (serve w r st))
  = match r with
    | PostUploadReport file =>
        match read file with
        | Return content =>
            <[uuid4 w := decode_report content]> (report_storage st)
        | Raise _ => report_storage st
        end
    | _ => report_storage st
    end.
Proof.
  destruct r as [|file|request]; simpl.
  - reflexivity.
  - unfold upload_report. by destruct (read file).
  - apply ask_question_storage.
Qed.

Lemma serve_keeps_sessions w r st (sid : pystr) :
  is_Some (report_storage st !! sid) →
  is_Some (report_storage (after (serve w r st)) !! sid).
Proof.
  intros Hknown. rewrite serve_storage.
  destruct r as [|file|request]; [done| |done].
  destruct (read file) as [content|e]; [|done].
  rewrite lookup_insert_is_Some. destruct (decide (uuid4 w = sid)); auto.
Qed.

Lemma serve_all_keeps_sessions rs st (sid : pystr) :
  is_Some (report_storage st !! sid) →
  is_Some (report_storage (serve_all rs st).2 !! sid).
Proof.
  revert st. induction rs as [|[w r] rs IH]; intros st Hknown; [done|].
  rewrite serve_all_cons. cbn [snd]. apply IH. by apply serve_keeps_sessions.
Qed.

Lemma complete_both_status w request report_text st issued :
  status_of (response (complete_both w request report_text st issued)) = 200
  ∨ status_of (response (complete_both w request report_text st issued)) = 500.
Proof.
  pose proof (complete_both_response w request report_text st issued) as Hshape.
  destruct (response _) as [content|e]; simpl; [by left|by right].
Qed.

Lemma ask_question_known_status w request st :
  is_Some (report_storage st !! session_id request) →
  status_of (response (ask_question w request st)) = 200
  ∨ status_of (response (ask_question w request st)) = 500.
Proof.
  intros [report_text Hknown]. unfold ask_question. rewrite Hknown.
  destruct (llm st) as [client|]; [apply complete_both_status|].
  destruct (new_OllamaLLM w _) as [client|e];
    [apply complete_both_status|by right].
Qed.

(** X7: a session is never lost: whatever requests are served afterwards,
    a session id of the store is still in the store, and a question about it
    is not answered with 404. *)
Theorem session_never_lost rs st (sid : pystr) w (q : pystr) :
  is_Some (report_storage st !! sid) →
  is_Some (report_storage (serve_all rs st).2 !! sid)
  ∧ status_of (response (ask_question w {| question := q; session_id := sid |}
                           (serve_all rs st).2))
    ≠ 404.
Proof.
  intros Hknown.
  pose proof (serve_all_keeps_sessions rs st sid Hknown) as Hstill.
  split; [exact Hstill|].
  destruct (ask_question_known_status w {| question := q; session_id := sid |}
              (serve_all rs st).2 Hstill) as [-> | ->]; discriminate.
Qed.

Lemma ask_question_failed w request st e :
  response (ask_question w request st) = Failed e →
  status_code e = 404 ∨ status_code e = 500.
Proof.
  unfold ask_question.
  destruct (report_storage st !! session_id request) as [report_text|];
    [|intros [= <-]; by left].
  assert (Hboth : ∀ st' issued,
    response (complete_both w request report_text st' issued) = Failed e →
    status_code e = 404 ∨ status_code e = 500).
  { intros st' issued Hresp.
    pose proof (complete_both_response w request report_text st' issued) as Hshape.
    rewrite Hresp in Hshape. by right. }
  destruct (llm st) as [client|]; [apply Hboth|].
  destruct (new_OllamaLLM w _) as [client|e0];
    [apply Hboth|intros [= <-]; by right].
Qed.

Lemma ask_question_ok_client w request st content :
  response (ask_question w request st) = Ok200 content →
  is_Some (llm st) ∨ ∃ client, new_OllamaLLM w (str "llama3") = Return client.
Proof.
  unfold ask_question.
  destruct (report_storage st !! session_id request) as [report_text|];
    [|discriminate].
  destruct (llm st) as [client|]; [by left; eauto|].
  destruct (new_OllamaLLM w _) as [client|e]; [by right; eauto|discriminate].
Qed.

(** X8: when [ask_question] answers with which status: 404 exactly when the
    session id is not in the store; 200 exactly when it is, a client is at
    hand or can be constructed, and both completions return; 500 in every
    other case. *)
Theorem ask_question_status w request st :
  (status_of (response (ask_question w request st)) = 404
   ↔ report_storage st !! session_id request = None)
  ∧ (status_of (response (ask_question w request st)) = 200
     ↔ ∃ report_text answer suggestions_text,
         report_storage st !! session_id request = Some report_text
         ∧ (is_Some (llm st)
            ∨ ∃ client, new_OllamaLLM w (str "llama3") = Return client)
         ∧ ainvoke w qa_prompt report_text (question request) = Return answer
         ∧ ainvoke w followup_prompt report_text (question request)
           = Return suggestions_text)
  ∧ (status_of (response (ask_question w request st)) = 404
     ∨ status_of (response (ask_question w request st)) = 200
     ∨ status_of (response (ask_question w request st)) = 500).
Proof.
  split; [|split].
  - split.
    + intros Hstatus.
      destruct (report_storage st !! session_id request) as [report_text|] eqn:Hlook;
        [|done].
      destruct (ask_question_known_status w request st) as [H200|H500];
        [by rewrite Hlook|rewrite H200 in Hstatus|rewrite H500 in Hstatus];
        discriminate.
    + intros Hnone. unfold ask_question. by rewrite Hnone.
  - split.
    + intros Hstatus.
      destruct (response (ask_question w request st)) as [content|e] eqn:Hresp.
      * pose proof (ask_question_ok_client _ _ _ _ Hresp) as Hclient.
        apply ask_question_ok in Hresp as (r & a & t & Hlook & Ha & Ht & _).
        exists r, a, t. done.
      * simpl in Hstatus.
        destruct (ask_question_failed _ _ _ _ Hresp) as [H404|H500];
          [rewrite H404 in Hstatus|rewrite H500 in Hstatus]; discriminate.
    + intros (r & a & t & Hlook & Hclient & Ha & Ht).
      unfold ask_question, complete_both. rewrite Hlook.
      destruct Hclient as [[client Hclient]|[client Hclient]].
      * rewrite Hclient, Ha, Ht. reflexivity.
      * destruct (llm st); [|rewrite Hclient]; rewrite Ha, Ht; reflexivity.
  - destruct (report_storage st !! session_id request) as [report_text|] eqn:Hlook.
    + right. apply ask_question_known_status. by rewrite Hlook.
    + left. unfold ask_question. by rewrite Hlook.
Qed.

Lemma serve_dom w r st :
  dom (report_storage (after (serve w r st)))
  = dom (report_storage st) ∪ list_to_set (option_list (drawn_id w r)).
Proof.
  rewrite serve_storage. destruct r as [|file|request]; simpl.
  - by rewrite union_empty_r_L.
  - destruct (read file) as [content|e]; simpl; [|by rewrite union_empty_r_L].
    rewrite dom_insert_L, union_empty_r_L. apply union_comm_L.
  - by rewrite union_empty_r_L.
Qed.

(** X9: the keys of the store are the ids handed out: after any sequence
    of requests, the session ids of the store are those it had before and
    those returned in the responses to the uploads, and no others. *)
Theorem report_storage_keys rs st :
  dom (report_storage (serve_all rs st).2)
  = dom (report_storage st)
    ∪ list_to_set (omap returned_id (serve_all rs st).1).
Proof.
  rewrite serve_all_returned_ids.
  revert st. induction rs as [|[w r] rs IH]; intros st.
  - simpl. by rewrite union_empty_r_L.
  - rewrite serve_all_cons, drawn_ids_cons. cbn [snd].
    rewrite IH, serve_dom.
    destruct (drawn_id w r) as [sid|]; simpl.
    + by rewrite union_empty_r_L, union_assoc_L.
    + by rewrite union_empty_r_L.
Qed.

(** X16: the last upload wins: after any sequence of requests, the id drawn
    by an upload leads to the text of that upload unless a later upload drew
    the same id; an id that no upload drew leads to what it led to before. *)
Theorem last_upload_wins rs st :
  (∀ (k : nat) w file content,
     rs !! k = Some (w, PostUploadReport file) →
     read file = Return content →
     uuid4 w ∉ drawn_ids (drop (S k) rs) →
     report_storage (serve_all rs st).2 !! uuid4 w = Some (decode_report content))
  ∧ (∀ sid : pystr,
       sid ∉ drawn_ids rs →
       report_storage (serve_all rs st).2 !! sid = report_storage st !! sid).
Proof.
  split; [|intros sid; apply serve_all_storage_other].
  revert st. induction rs as [|[w0 r0] rs IH]; intros st k w file content Hk Hread Hlater.
  - discriminate Hk.
  - rewrite serve_all_cons. cbn [snd]. destruct k as [|k]; simpl in Hk, Hlater.
    + injection Hk as -> ->.
      rewrite serve_all_storage_other by exact Hlater.
      rewrite serve_storage, Hread. apply lookup_insert_eq.
    + by apply (IH _ k w file content).
Qed.

End SessionProperties.

(** ** The calls to the model runtime *)

Section RuntimeProperties.

Context {ucd : UnicodeData}.

Lemma complete_both_events w request report_text st issued :
  events (complete_both w request report_text st issued)
  = issued ++ [Completion qa_prompt report_text (question request);
               Completion followup_prompt report_text (question request)].
Proof.
  unfold complete_both.
  by destruct (gather _ _ _) as [[answer suggestions_text]|e].
Qed.

Lemma complete_both_llm w request report_text st issued :
  llm (after (complete_both w request report_text st issued)) = llm st.
Proof.
  unfold complete_both.
  by destruct (gather _ _ _) as [[answer suggestions_text]|e].
Qed.

(** The calls of one question, case by case. *)
Lemma ask_question_events w request st :
  events (ask_question w request st)
  = match report_storage st !! session_id request with
    | None => []
    | Some report_text =>
        let both :=
          [Completion qa_prompt report_text (question request);
           Completion followup_prompt report_text (question request)] in
        match llm st with
        | Some _ => both
        | None =>
            match new_OllamaLLM w (str "llama3") with
            | Return _ => Constructed (str "llama3") :: both
            | Raise _ => [Constructed (str "llama3")]
            end
        end
    end.
Proof.
  unfold ask_question.
  destruct (report_storage st !! session_id request) as [report_text|]; [|done].
  destruct (llm st) as [client|]; [by rewrite complete_both_events|].
  destruct (new_OllamaLLM w _) as [client|e]; [|done].
  by rewrite complete_both_events.
Qed.

Lemma serve_keeps_client w r st client :
  llm st = Some client →
  llm (after (serve w r st)) = Some client
  ∧ ∀ m, Constructed m ∉ events (serve w r st).
Proof.
  intros Hclient. destruct r as [|file|request]; simpl.
  - split; [exact Hclient|]. intros m. apply not_elem_of_nil.
  - unfold upload_report. destruct (read file) as [content|e]; simpl;
      (split; [exact Hclient|intros m; apply not_elem_of_nil]).
  - split.
    + unfold ask_question.
      destruct (report_storage st !! session_id request) as [report_text|];
        [|exact Hclient].
      rewrite Hclient. by rewrite complete_both_llm.
    + intros m. rewrite ask_question_events.
      destruct (report_storage st !! session_id request) as [report_text|];
        [|apply not_elem_of_nil].
      rewrite Hclient. cbv zeta.
      rewrite !elem_of_cons, elem_of_nil. by intros [|[|]].
Qed.

(** X10: once the client exists it is kept: whatever requests are served,
    the client stays the same object and the constructor is not called
    again. *)
Theorem llm_client_kept rs st client :
  llm st = Some client →
  llm (serve_all rs st).2 = Some client
  ∧ ∀ m, Constructed m ∉ trace rs st.
Proof.
  revert st. induction rs as [|[w r] rs IH]; intros st Hclient.
  - split; [exact Hclient|]. intros m. apply not_elem_of_nil.
  - destruct (serve_keeps_client w r st client Hclient) as [Hnext Hnone].
    destruct (IH _ Hnext) as [Hfinal Hrest].
    rewrite serve_all_cons. cbn [snd trace]. split; [exact Hfinal|].
    intros m. rewrite elem_of_app. intros [Hin|Hin].
    + by apply (Hnone m).
    + by apply (Hrest m).
Qed.


(** X12: the answer of a successful response is the completion without the
    whitespace around it: it neither begins nor ends with whitespace, and
    the completion is the answer between two runs of whitespace. *)
Theorem answer_is_trimmed w request st answer suggestions :
  response (ask_question w request st) = Ok200 (AnswerBody answer suggestions) →
  starts_clean answer = true
  ∧ ends_clean answer = true
  ∧ ∃ report_text completion pre post,
      report_storage st !! session_id request = Some report_text
      ∧ ainvoke w qa_prompt report_text (question request) = Return completion
      ∧ completion = pre ++ answer ++ post
      ∧ all_space pre = true
      ∧ all_space post = true.
Proof.
  intros Hok.
  apply ask_question_ok in Hok as (r & completion & text & Hlook & Ha & _ & Hbody).
  injection Hbody as -> _.
  split; [apply strip_starts_clean|]. split; [apply strip_ends_clean|].
  destruct (strip_split completion) as (pre & post & Hsplit & Hpre & Hpost).
  exists r, completion, pre, post. done.
Qed.

End RuntimeProperties.

(** ** Decoding *)

Lemma utf8_decode_shorter (n : nat) (content : list byte) (text : pystr) :
  (length content ≤ n)%nat →
  utf8_decode content = Some text →
  (length text ≤ length content)%nat ∧ (text = [] → content = []).
Proof.
  revert content text. induction n as [|n IH]; intros content text Hn Hdec.
  - destruct content; [|simpl in Hn; lia]. by injection Hdec as <-.
  - destruct content as [|b0 bs1]; [by injection Hdec as <-|].
    cbn [utf8_decode] in Hdec. simpl in Hn.
    repeat case_match; try discriminate Hdec;
      apply fmap_Some in Hdec as (rest & Hrest & ->);
      apply IH in Hrest as [Hlen _]; simpl in *; try lia;
      split; (lia || discriminate).
Qed.

Lemma utf8_decode_ascii (content : list byte) :
  Forall (λ b, Byte.to_N b < 128) content →
  utf8_decode content = Some (map Byte.to_N content).
Proof.
  induction 1 as [|b content Hb _ IH]; [done|].
  cbn [utf8_decode]. unfold in_range.
  replace (0 <=? Byte.to_N b) with true by (symmetry; apply N.leb_le; lia).
  replace (Byte.to_N b <=? 127) with true by (symmetry; apply N.leb_le; lia).
  simpl. by rewrite IH.
Qed.

(** X13: an upload of ASCII bytes is stored as it is: the UTF-8 decoder
    succeeds, both decoders agree, and the stored text has the bytes as its
    code points. *)
Theorem upload_report_ascii w file content st :
  read file = Return content →
  Forall (λ b, Byte.to_N b < 128) content →
  utf8_decode content = Some (map Byte.to_N content)
  ∧ utf8_decode content = Some (latin1_decode content)
  ∧ decode_report content = latin1_decode content
  ∧ report_storage (after (upload_report w file st)) !! uuid4 w
    = Some (map Byte.to_N content).
Proof.
  intros Hread Hascii.
  pose proof (utf8_decode_ascii content Hascii) as Hutf8.
  assert (Htext : decode_report content = map Byte.to_N content).
  { unfold decode_report. by rewrite Hutf8. }
  split; [exact Hutf8|]. split; [exact Hutf8|]. split; [exact Htext|].
  destruct (upload_report_stored w file content st Hread) as [_ ->].
  rewrite Htext. apply lookup_insert_eq.
Qed.

(** X14: the stored text never has more characters than the upload has
    bytes, it has as many when the Latin-1 decoder is used, and it is empty
    only for the empty upload. *)
Theorem decode_report_length (content : list byte) :
  (length (decode_report content) ≤ length content)%nat
  ∧ (utf8_decode content = None →
     length (decode_report content) = length content)
  ∧ (decode_report content = [] ↔ content = []).
Proof.
  unfold decode_report, latin1_decode.
  destruct (utf8_decode content) as [text|] eqn:Hdec.
  - destruct (utf8_decode_shorter (length content) content text (le_n _) Hdec)
      as [Hlen Hnil].
    split; [exact Hlen|]. split; [discriminate|].
    split; [exact Hnil|]. intros ->. by injection Hdec as <-.
  - rewrite length_map. split; [lia|]. split; [done|].
    split; [|by intros ->]. by destruct content.
Qed.

(** ** Runs of the process *)

Section RunProperties.

Context {ucd : UnicodeData}.

Lemma serve_storage_no_draw w r st :
  drawn_id w r = None →
  report_storage (after (serve w r st)) = report_storage st.
Proof.
  intros Hnone. rewrite serve_storage.
  destruct r as [|file|request]; [done| |done].
  simpl in Hnone. by destruct (read file).
Qed.

Lemma serve_all_empty_store rs st (k : nat) w request :
  drawn_ids rs = [] →
  report_storage st = ∅ →
  report_storage (serve_all rs st).2 = ∅
  ∧ (rs !! k = Some (w, PostAskQuestion request) →
     (serve_all rs st).1 !! k
     = Some (Failed {| status_code := 404;
                       detail := str "No report found. Please upload a report first." |})).
Proof.
  revert st k. induction rs as [|[w0 r0] rs IH]; intros st k Hnone Hempty.
  - split; [exact Hempty|discriminate].
  - rewrite drawn_ids_cons in Hnone.
    destruct (drawn_id w0 r0) as [sid|] eqn:Hdrawn; [discriminate Hnone|].
    assert (Hnext : report_storage (after (serve w0 r0 st)) = ∅).
    { by rewrite (serve_storage_no_draw w0 r0 st Hdrawn). }
    rewrite serve_all_cons. cbn [fst snd].
    destruct k as [|k].
    + split; [apply (IH _ 0%nat Hnone Hnext)|].
      intros [= -> ->]. simpl. unfold ask_question.
      by rewrite Hempty, lookup_empty.
    + apply (IH _ k Hnone Hnext).
Qed.

(** X15: a process in which no upload has succeeded has no session: from
    the start of the process on, the store stays empty and every question
    is answered with 404, whatever session id it names. *)
Theorem fresh_process_answers_404 w0 rs :
  drawn_ids rs = [] →
  report_storage (serve_all rs (startup w0)).2 = ∅
  ∧ ∀ (k : nat) w request,
      rs !! k = Some (w, PostAskQuestion request) →
      (serve_all rs (startup w0)).1 !! k
      = Some (Failed {| status_code := 404;
                        detail := str "No report found. Please upload a report first." |}).
Proof.
  intros Hnone. split.
  - by apply (serve_all_empty_store rs (startup w0) 0%nat w0
                {| question := []; session_id := [] |}).
  - intros k w request.
    by apply (serve_all_empty_store rs (startup w0) k w request).
Qed.

Lemma ask_question_completion w request st prompt report_text q :
  Completion prompt report_text q ∈ events (ask_question w request st) →
  report_storage st !! session_id request = Some report_text.
Proof.
  rewrite ask_question_events.
  destruct (report_storage st !! session_id request) as [stored|];
    [|by intros []%elem_of_nil].
  cbv zeta.
  destruct (llm st) as [client|];
    [|destruct (new_OllamaLLM w (str "llama3")) as [client|e]];
    rewrite !elem_of_cons, elem_of_nil;
    intros Hin; destruct_or!; by simplify_eq.
Qed.

(** X17: only uploaded reports reach the model: over any sequence of
    requests, the report carried by a completion is a text that was in the
    store at the beginning or the decoded content of one of the uploads of
    the sequence. *)
Theorem only_stored_reports_are_sent rs st prompt report_text q :
  Completion prompt report_text q ∈ trace rs st →
  (∃ sid : pystr, report_storage st !! sid = Some report_text)
  ∨ (∃ (k : nat) w file content,
       rs !! k = Some (w, PostUploadReport file)
       ∧ read file = Return content
       ∧ report_text = decode_report content).
Proof.
  revert st. induction rs as [|[w r] rs IH]; intros st; cbn [trace].
  - by intros []%elem_of_nil.
  - rewrite elem_of_app. intros [Hnow|Hlater].
    + left. destruct r as [|file|request]; simpl in Hnow.
      * by apply elem_of_nil in Hnow.
      * unfold upload_report in Hnow.
        destruct (read file); by apply elem_of_nil in Hnow.
      * apply ask_question_completion in Hnow. eauto.
    + apply IH in Hlater as [(sid & Hsid)|(k & w' & file & content & Hk & Hread & ->)].
      * rewrite serve_storage in Hsid.
        destruct r as [|file|request]; [by left; eauto| |by left; eauto].
        destruct (read file) as [content|e] eqn:Hread; [|by left; eauto].
        apply lookup_insert_Some in Hsid as [[_ <-]|[_ Hsid]]; [|by left; eauto].
        right. by exists 0%nat, w, file, content.
      * right. by exists (S k), w', file, content.
Qed.

End RunProperties.

(** ** Numbered lists *)

Lemma contains_false (c : N) (s : pystr) : contains c s = false ↔ c ∉ s.
Proof.
  unfold contains. induction s as [|x s IH]; simpl.
  - split; [intros _; apply not_elem_of_nil|done].
  - rewrite orb_false_iff, IH, not_elem_of_cons, N.eqb_neq. done.
Qed.

Lemma split_without_separator (sep : N) (s : pystr) :
  sep ∉ s → split sep s = [s].
Proof.
  induction s as [|c s IH]; simpl; [done|].
  rewrite not_elem_of_cons. intros [Hc Hs].
  replace (c =? sep) with false by (symmetry; apply N.eqb_neq; congruence).
  by rewrite (IH Hs).
Qed.

Lemma split_join_lines (lines : list pystr) :
  lines ≠ [] →
  Forall (λ line, 10 ∉ line) lines →
  split 10 (join_lines lines) = lines.
Proof.
  intros Hne Hall. induction Hall as [|line lines Hline Hlines IH]; [done|].
  destruct lines as [|line' lines].
  - simpl. by apply split_without_separator.
  - change (join_lines (line :: line' :: lines))
      with (line ++ 10 :: join_lines (line' :: lines)).
    rewrite split_app, IH by done.
    by rewrite (split_without_separator 10 line Hline).
Qed.

Lemma ends_clean_app (s t : pystr) : t ≠ [] → ends_clean (s ++ t) = ends_clean t.
Proof.
  intros Hne. unfold ends_clean. rewrite rev_app_distr.
  apply starts_clean_app. intros Hnil. apply Hne.
  apply (f_equal (@rev N)) in Hnil. by rewrite rev_involutive in Hnil.
Qed.

Lemma ascii_digit_not_space (d : N) : ascii_isdigit d = true → isspace d = false.
Proof.
  unfold ascii_isdigit. rewrite andb_true_iff, !N.leb_le. intros [Hlo Hhi].
  unfold isspace.
  repeat match goal with
         | |- context [?a <=? ?b] =>
             first [ replace (a <=? b) with false by (symmetry; apply N.leb_gt; lia)
                   | replace (a <=? b) with true by (symmetry; apply N.leb_le; lia) ]
         | |- context [?a =? ?b] =>
             replace (a =? b) with false by (symmetry; apply N.eqb_neq; lia)
         end.
  reflexivity.
Qed.

Section NumberedLists.

Context {ucd : UnicodeData}.

Lemma stripped_lines_join (lines : list pystr) :
  Forall (λ line,
            line ≠ [] ∧ starts_clean line = true ∧ ends_clean line = true
            ∧ 10 ∉ line) lines →
  stripped_lines (join_lines lines) = lines.
Proof.
  intros Hall. destruct lines as [|line0 lines0]; [done|].
  unfold stripped_lines. rewrite split_join_lines; [|done|].
  - induction Hall as [|line lines (Hne & Hstart & Hend & _) _ IH]; [done|].
    rewrite filter_cons_True.
    + simpl. by rewrite (strip_clean line Hstart Hend), IH.
    + rewrite (strip_clean line Hstart Hend). by destruct line.
  - eapply Forall_impl; [exact Hall|]. by intros line (_ & _ & _ & ?).
Qed.

(** What a well-formed item is for the parser. *)
Lemma well_formed_item_line (item : pystr * pystr) :
  well_formed_item item = true →
  (item_line item ≠ []
   ∧ starts_clean (item_line item) = true
   ∧ ends_clean (item_line item) = true
   ∧ 10 ∉ item_line item)
  ∧ numbered (item_line item) = true
  ∧ accepted (item_line item) = Some item.2.
Proof.
  destruct item as [marker q]. unfold well_formed_item, item_line. simpl.
  rewrite !andb_true_iff, !negb_true_iff.
  intros ((((((((Hdigit & Hnoletter) & Hlen) & Hnl1) & Hnl2) & Hletter)
             & Hstart) & Hend) & Htest).
  destruct marker as [|d marker]; [discriminate|].
  destruct q as [|c q]; [discriminate|].
  apply Nat.leb_le in Hlen. apply contains_false in Hnl1, Hnl2.
  assert (Hd : isdigit d = true).
  { unfold isdigit. unfold ascii_isdigit in Hdigit.
    apply andb_true_iff in Hdigit as [Hlo Hhi].
    apply N.leb_le in Hlo, Hhi.
    replace (d <? 128) with true by (symmetry; apply N.ltb_lt; lia).
    unfold ascii_isdigit. by rewrite (proj2 (N.leb_le _ _) Hlo),
                                     (proj2 (N.leb_le _ _) Hhi). }
  assert (Hclean : cleaned_of ((d :: marker) ++ c :: q) = c :: q).
  { rewrite (cleaned_of_first_letter _ (length (d :: marker)) c).
    - by rewrite drop_app_length.
    - lia.
    - by rewrite take_app_length.
    - by rewrite lookup_app_r, Nat.sub_diag.
    - exact Hletter. }
  split; [split; [done|split; [|split]]|split].
  - simpl. by rewrite (ascii_digit_not_space d Hdigit).
  - by rewrite ends_clean_app.
  - rewrite elem_of_app. by intros [|].
  - unfold numbered. simpl. by rewrite Hd.
  - unfold accepted. rewrite Hclean. cbv zeta.
    replace (truthy (c :: q)) with true by done.
    rewrite Htest. simpl. by rewrite (strip_clean (c :: q) Hstart Hend).
Qed.

Lemma numbered_questions_items (items : list (pystr * pystr)) :
  Forall (λ item, well_formed_item item = true) items →
  numbered_questions (map item_line items) = map snd items.
Proof.
  induction 1 as [|item items Hitem _ IH]; [done|].
  destruct (well_formed_item_line item Hitem) as (_ & Hnum & Hacc).
  cbn [map]. rewrite numbered_questions_cons, Hnum, Hacc, IH. done.
Qed.

(** X18: a well-formed numbered list is read back: when the completion is
    a list of items, each a short marker that begins with a digit followed
    by a question, one item per line, [parse_suggestions] returns the first
    three questions, without their markers and in their order. *)
Theorem parse_suggestions_numbered_list (items : list (pystr * pystr)) :
  items ≠ [] →
  Forall (λ item, well_formed_item item = true) items →
  parse_suggestions (join_lines (map item_line items)) = take 3 (map snd items).
Proof.
  intros Hne Hitems. unfold parse_suggestions. cbv zeta.
  rewrite collect_truthy, collect_take.
  rewrite stripped_lines_join.
  - rewrite (numbered_questions_items items Hitems).
    by destruct items.
  - apply Forall_fmap. eapply Forall_impl; [exact Hitems|].
    intros item Hitem. by destruct (well_formed_item_line item Hitem) as [? _].
Qed.


End NumberedLists.

(** ** The further theorems at concrete inputs *)

Lemma parse_suggestions_skips_preamble_witness :
  parse_suggestions (ucd := ascii_only)
    (str "Sure, here are three questions:" ++ nl ++ three_numbered)
  = parse_suggestions (ucd := ascii_only) three_numbered.
Proof.
  apply (parse_suggestions_skips_preamble (ucd := ascii_only)
           (str "Sure, here are three questions:") three_numbered).
  vm_compute. repeat constructor.
Defined.

Lemma parse_suggestions_first_three_witness :
  parse_suggestions (ucd := ascii_only)
    (three_numbered ++ nl ++ str "4. One more question?")
  = parse_suggestions (ucd := ascii_only) three_numbered.
Proof.
  apply (parse_suggestions_first_three (ucd := ascii_only) three_numbered
           (str "4. One more question?")).
  vm_compute. lia.
Defined.

Lemma parse_suggestions_blank_text_witness :
  all_space blank_text = true
  ∧ parse_suggestions (ucd := ascii_only) (three_numbered ++ nl ++ blank_text)
    = parse_suggestions (ucd := ascii_only) three_numbered.
Proof.
  assert (Hblank : all_space blank_text = true) by reflexivity.
  split; [exact Hblank|].
  exact (proj1 (proj2 (parse_suggestions_blank_text (ucd := ascii_only)
                         three_numbered blank_text [] Hblank))).
Defined.

Lemma parse_suggestions_elements_witness :
  str "What about Y?" ∈ parse_suggestions (ucd := ascii_only) three_numbered
  ∧ str "What about Y?" ≠ [].
Proof.
  assert (Hin : str "What about Y?"
                ∈ parse_suggestions (ucd := ascii_only) three_numbered).
  { vm_compute. apply list_elem_of_further, list_elem_of_here. }
  split; [exact Hin|].
  exact (proj1 (proj1 (parse_suggestions_elements (ucd := ascii_only)
                         three_numbered (str "What about Y?") Hin))).
Defined.

Lemma parse_suggestions_numbered_list_witness :
  Forall (λ item, well_formed_item (ucd := ascii_only) item = true) three_items
  ∧ parse_suggestions (ucd := ascii_only) (join_lines (map item_line three_items))
    = take 3 (map snd three_items).
Proof.
  assert (Hitems : Forall (λ item, well_formed_item (ucd := ascii_only) item = true)
                     three_items).
  { repeat constructor. }
  split; [exact Hitems|].
  apply (parse_suggestions_numbered_list (ucd := ascii_only) three_items);
    [discriminate|exact Hitems].
Defined.

Lemma session_never_lost_witness :
  is_Some (report_storage one_report !! id_a)
  ∧ status_of (response (ask_question (ucd := ascii_only) (world_down id_b)
                           (blocking_question id_a)
                           (serve_all (ucd := ascii_only) two_uploads one_report).2))
    ≠ 404.
Proof.
  assert (Hknown : is_Some (report_storage one_report !! id_a)).
  { rewrite one_report_lookup. eauto. }
  split; [exact Hknown|].
  exact (proj2 (session_never_lost (ucd := ascii_only) two_uploads one_report
                  id_a (world_down id_b) (str "What is blocking progress?") Hknown)).
Defined.

Lemma ask_question_status_witness :
  report_storage (startup (world_up id_a)) !! id_b = None
  ∧ status_of (response (ask_question (ucd := ascii_only) (world_up id_a)
                           (blocking_question id_b) (startup (world_up id_a))))
    = 404.
Proof.
  assert (Hunknown : report_storage (startup (world_up id_a))
                     !! session_id (blocking_question id_b) = None).
  { apply lookup_empty. }
  split; [exact Hunknown|].
  exact (proj2 (proj1 (ask_question_status (ucd := ascii_only) (world_up id_a)
                         (blocking_question id_b) (startup (world_up id_a))))
           Hunknown).
Defined.

Lemma last_upload_wins_witness :
(id_a ∉ drawn_ids (drop 1 two_uploads))
  ∧ report_storage
      (serve_all (ucd := ascii_only) two_uploads (startup (world_up id_a))).2
    !! id_a
    = Some (decode_report report_bytes).
Proof.
  assert (Hlater : id_a ∉ drawn_ids (drop 1 two_uploads)).
  { apply (bool_decide_unpack _). vm_compute. exact I. }
  split; [exact Hlater|].
  exact (proj1 (last_upload_wins (ucd := ascii_only) two_uploads
                  (startup (world_up id_a)))
           0%nat (world_up id_a) report_file report_bytes eq_refl eq_refl Hlater).
Defined.

Lemma llm_client_kept_witness :
  llm one_report = Some {| model := str "llama3" |}
  ∧ llm (serve_all (ucd := ascii_only) two_uploads one_report).2
    = Some {| model := str "llama3" |}.
Proof.
  assert (Hclient : llm one_report = Some {| model := str "llama3" |})
    by reflexivity.
  split; [exact Hclient|].
  exact (proj1 (llm_client_kept (ucd := ascii_only) two_uploads one_report
                  {| model := str "llama3" |} Hclient)).
Defined.


Lemma answer_is_trimmed_witness :
  starts_clean (str "API access is blocking progress.") = true
  ∧ ends_clean (str "API access is blocking progress.") = true.
Proof.
  assert (Hok : response (ask_question (ucd := ascii_only) (world_up id_b)
                            (blocking_question id_a) one_report)
                = Ok200 (AnswerBody (str "API access is blocking progress.")
                           [str "Is X on track?"; str "What about Y?";
                            str "Will Z ship?"])).
  { vm_compute. reflexivity. }
  destruct (answer_is_trimmed (ucd := ascii_only) _ _ _ _ _ Hok)
    as (Hstart & Hend & _).
  split; [exact Hstart|exact Hend].
Defined.

Lemma upload_report_ascii_witness :
  Forall (λ b, Byte.to_N b < 128) report_bytes
  ∧ report_storage (after (upload_report (world_up id_a) report_file
                             (startup (world_up id_a))))
    !! id_a
    = Some (map Byte.to_N report_bytes).
Proof.
  assert (Hascii : Forall (λ b, Byte.to_N b < 128) report_bytes).
  { apply (bool_decide_unpack _). vm_compute. exact I. }
  split; [exact Hascii|].
  exact (proj2 (proj2 (proj2 (upload_report_ascii (world_up id_a) report_file
                                report_bytes (startup (world_up id_a))
                                eq_refl Hascii)))).
Defined.

Lemma decode_report_length_witness :
  utf8_decode latin1_bytes = None
  ∧ length (decode_report latin1_bytes) = 4%nat.
Proof.
  assert (Hinvalid : utf8_decode latin1_bytes = None) by reflexivity.
  split; [exact Hinvalid|].
  exact (proj1 (proj2 (decode_report_length latin1_bytes)) Hinvalid).
Defined.

Lemma fresh_process_answers_404_witness :
  drawn_ids no_upload = []
  ∧ report_storage
      (serve_all (ucd := ascii_only) no_upload (startup (world_up id_a))).2
    = ∅.
Proof.
  assert (Hnone : drawn_ids no_upload = []) by reflexivity.
  split; [exact Hnone|].
  exact (proj1 (fresh_process_answers_404 (ucd := ascii_only) (world_up id_a)
                  no_upload Hnone)).
Defined.

Lemma only_stored_reports_are_sent_witness :
  (∃ sid : pystr,
     report_storage (startup (world_up id_a)) !! sid
     = Some (decode_report report_bytes))
  ∨ (∃ (k : nat) w file content,
       two_uploads !! k = Some (w, PostUploadReport file)
       ∧ read file = Return content
       ∧ decode_report report_bytes = decode_report content).
Proof.
  apply (only_stored_reports_are_sent (ucd := ascii_only) two_uploads
           (startup (world_up id_a)) qa_prompt (decode_report report_bytes)
           (str "What is blocking progress?")).
  vm_compute. apply list_elem_of_here.
Defined.

